(** * The dat-file display client (src/main.cpp) and the archive it prints

    The client declares a game version on a [genie::DatFile] object, asks it
    to load [<game-dir>/resources/_common/dat/empires2_x2_p1.dat], and prints
    the civilizations, the first technologies, the first units of Gaia and
    three collection counts.  [main] is embedded as a function from the
    command line and the decoder's behaviour to a trace of observable
    actions and a result. *)

From Stdlib Require Import ZArith List String Ascii Bool Lia DecimalString.
Import ListNotations.
Local Open Scope string_scope.
Local Open Scope Z_scope.

(** ** [size_t]: 64-bit unsigned arithmetic *)

Module SizeT.

Definition modulus : Z := 2 ^ 64.

Definition wrap (z : Z) : Z := z mod modulus.

(** [a - b] on [size_t] operands. *)
Definition sub (a b : Z) : Z := wrap (a - b).

(** [i++] on a [size_t]. *)
Definition incr (i : Z) : Z := wrap (i + 1).

(** [std::min<size_t>(a, b)]. *)
Definition min (a b : Z) : Z := if b <? a then b else a.

End SizeT.

(** ** [std::vector] and [std::string] operations used by the client *)

(** [v.size()] returns a [size_t]; for the vectors of a program, which have
    fewer than [2^64] elements, it is the number of elements. *)
Definition size {A : Type} (v : list A) : Z :=
  SizeT.wrap (Z.of_nat (List.length v)).

(** [v.empty()]. *)
Definition empty {A : Type} (v : list A) : bool :=
  match v with [] => true | _ :: _ => false end.

(** [v[i]]: defined only for an index below the number of elements; [None]
    stands for the undefined behaviour of an out-of-range [operator[]]. *)
Definition vec_at {A : Type} (v : list A) (i : Z) : option A :=
  if (0 <=? i) && (i <? Z.of_nat (List.length v)) then nth_error v (Z.to_nat i)
  else None.

(** [s.empty()] on a [std::string]. *)
Definition str_empty (s : string) : bool :=
  match s with EmptyString => true | String _ _ => false end.

(** [os << n] for an integer [n]: its decimal digits, with a sign when
    negative. *)
Definition dec (n : Z) : string := NilZero.string_of_int (Z.to_int n).

(** ** The records the client reads *)

(** Modelled from the spec: the enumeration of game versions is declared in
    genie/dat, which is not part of the sources; the client names
    [GV_LatestDE2] only, the other members of the closed set are numbered. *)
Inductive GameVersion : Type :=
| GV_LatestDE2
| GV_other (tag : nat).

Module Unit.
(** Modelled from the spec: the unit record of genie/dat (declaration not
    part of the sources), with the three attributes the client prints. *)
Record t : Type := mk { ID : Z; Name : string; HitPoints : Z }.
End Unit.

Module Civ.
(** Modelled from the spec: the civilization record of genie/dat, with its
    display name and its own sequence of units. *)
Record t : Type := mk { Name : string; Units : list Unit.t }.
End Civ.

Module Tech.
(** Modelled from the spec: the technology record of genie/dat; only its
    display name is read here. *)
Record t : Type := mk { Name : string }.
End Tech.

(** Modelled from the spec: graphics, sounds and effects are leaf records of
    genie/dat of which the client reads nothing but how many there are. *)
Inductive Graphic : Type := a_graphic.
Inductive Sound : Type := a_sound.
Inductive Effect : Type := an_effect.

Module DatFile.
(** Modelled from the spec: the [genie::DatFile] object (declared in
    genie/dat/DatFile.h, not part of the sources) with the members the
    client touches: the version declared by [setGameVersion], if any, and
    the public members filled by [load]. *)
Record t : Type := mk {
  declared : option GameVersion;
  FileVersion : string;
  Civs : list Civ.t;
  Techs : list Tech.t;
  Graphics : list Graphic;
  Sounds : list Sound;
  Effects : list Effect
}.

(** [genie::DatFile df;] *)
Definition fresh : t := mk None "" [] [] [] [] [].

(** [df.setGameVersion(gv)] *)
Definition setGameVersion (gv : GameVersion) (df : t) : t :=
  mk (Some gv) (FileVersion df) (Civs df) (Techs df)
     (Graphics df) (Sounds df) (Effects df).
End DatFile.

(** Modelled from the spec: the three typed failures of a load (spec,
    sections 6 and 7); their classes live in genie/dat. *)
Inductive LoadError : Type := TruncatedData | CorruptArchive | UnsupportedVersion.

(** The class of an exception object derived from [std::exception]: one of
    the three failures above, or any other class; the handler of the client,
    [catch (const std::exception &e)], accepts them all. *)
Inductive ExceptionClass : Type :=
| typed_failure (failure : LoadError)
| other_exception.

Coercion typed_failure : LoadError >-> ExceptionClass.

(** An exception object derived from [std::exception], as the client's
    handler sees it: its class and its [what()] text. *)
Record exception : Type :=
  mk_exception { exn_class : ExceptionClass; what : string }.

(** What [df.load(fileName)] does is decided by genie/dat and by the file
    system; the client is verified against every such behaviour: given the
    object as it stands and the file name, [load] either fills the object or
    throws an exception derived from [std::exception], of any class.  A
    throw of another type would pass the client's handler and is not part of
    this model. *)
Inductive LoadOutcome : Type :=
| Loaded (df : DatFile.t)
| Threw (e : exception).

Definition Decoder : Type := DatFile.t -> string -> LoadOutcome.

(** ** Observable actions *)

Inductive stream : Type := cout | cerr.

Inductive member : Type :=
| mFileVersion | mCivs | mTechs | mGraphics | mSounds | mEffects.

Inductive vector : Type := vCivs | vTechs | vUnits.

Inductive event : Type :=
| EvOut (s : stream) (line : string)       (* one [s << ... << std::endl] *)
| EvNew                                    (* [genie::DatFile df;] *)
| EvSetGameVersion (gv : GameVersion)
| EvLoad (declared : option GameVersion) (fileName : string)
| EvRead (m : member)                      (* a member of [df] is read *)
| EvIndex (v : vector) (i : Z).            (* [operator[]] on a vector *)

Definition trace : Type := list event.

(** ** A monad for the body of [main]: a trace and a way of completing *)

Inductive result (A : Type) : Type :=
| Value (a : A)
| Return (code : Z)          (* [return code;] from [main] *)
| Throw (e : exception)
| Undefined                  (* undefined behaviour was reached *)
| OutOfFuel.                 (* the loop model ran out of iterations *)

Arguments Value {A} a.
Arguments Return {A} code.
Arguments Throw {A} e.
Arguments Undefined {A}.
Arguments OutOfFuel {A}.

Definition M (A : Type) : Type := (trace * result A)%type.

Definition ret {A : Type} (a : A) : M A := ([], Value a).

Definition bind {A B : Type} (m : M A) (k : A -> M B) : M B :=
  match m with
  | (t, Value a) => let (t', r) := k a in ((t ++ t')%list, r)
  | (t, Return c) => (t, Return c)
  | (t, Throw e) => (t, Throw e)
  | (t, Undefined) => (t, Undefined)
  | (t, OutOfFuel) => (t, OutOfFuel)
  end.

Declare Scope prog_scope.
Delimit Scope prog_scope with prog.
Notation "x <- m ;; k" := (bind m (fun x => k))
  (at level 100, m at next level, right associativity) : prog_scope.
Notation "m ;; k" := (bind m (fun _ => k))
  (at level 100, right associativity) : prog_scope.
Local Open Scope prog_scope.

Definition emit (e : event) : M unit := ([e], Value tt).

(** [s << text << std::endl;] *)
Definition print (s : stream) (line : string) : M unit := emit (EvOut s line).

(** [return code;] *)
Definition return_ {A : Type} (code : Z) : M A := ([], Return code).

(** Reading member [m] of [df], whose value is [a]. *)
Definition read {A : Type} (m : member) (a : A) : M A := ([EvRead m], Value a).

(** [v[i]] on the vector named [name]. *)
Definition index {A : Type} (name : vector) (v : list A) (i : Z) : M A :=
  match vec_at v i with
  | Some a => ([EvIndex name i], Value a)
  | None => ([EvIndex name i], Undefined)
  end.

(** [try { body } catch (const std::exception &e) { handler }] *)
Definition try_catch {A : Type} (body : M A) (handler : exception -> M A) : M A :=
  match body with
  | (t, Throw e) => let (t', r) := handler e in ((t ++ t')%list, r)
  | other => other
  end.

(** [df.load(fileName)] *)
Definition load (decoder : Decoder) (df : DatFile.t) (fileName : string)
  : M DatFile.t :=
  match decoder df fileName with
  | Loaded df' => ([EvLoad (DatFile.declared df) fileName], Value df')
  | Threw e => ([EvLoad (DatFile.declared df) fileName], Throw e)
  end.

(** ** The command line *)

(** A hosted program is started with its own name in [argv[0]]: the command
    line is that name and the arguments after it, and [argc] counts both. *)
Record CommandLine : Type := mk_cl { argv0 : string; args : list string }.

Definition argv (cl : CommandLine) : list string := argv0 cl :: args cl.

Definition argc (cl : CommandLine) : Z := Z.of_nat (List.length (argv cl)).

(** [argv[k]], a null pointer past the arguments. *)
Definition argv_at (cl : CommandLine) (k : nat) : M string :=
  match nth_error (argv cl) k with
  | Some s => ret s
  | None => ([], Undefined)
  end.

(** ** [main] *)

Section Client.

Variable decoder : Decoder.

(** main.cpp:34-36 *)
Fixpoint civ_loop (df : DatFile.t) (fuel : nat) (i : Z) : M unit :=
  n <- read mCivs (size (DatFile.Civs df)) ;;
  if i <? n then
    match fuel with
    | O => ([], OutOfFuel)
    | S fuel' =>
        civs <- read mCivs (DatFile.Civs df) ;;
        c <- index vCivs civs i ;;
        print cout ("  [" ++ dec i ++ "] " ++ Civ.Name c) ;;
        civ_loop df fuel' (SizeT.incr i)
    end
  else ret tt.

(** main.cpp:42-46 *)
Fixpoint tech_loop (df : DatFile.t) (techLimit : Z) (fuel : nat) (i : Z)
  : M unit :=
  if i <? techLimit then
    match fuel with
    | O => ([], OutOfFuel)
    | S fuel' =>
        techs <- read mTechs (DatFile.Techs df) ;;
        t <- index vTechs techs i ;;
        (if negb (str_empty (Tech.Name t)) then
           techs' <- read mTechs (DatFile.Techs df) ;;
           t' <- index vTechs techs' i ;;
           print cout ("  [" ++ dec i ++ "] " ++ Tech.Name t')
         else ret tt) ;;
        tech_loop df techLimit fuel' (SizeT.incr i)
    end
  else ret tt.

(** main.cpp:56-63; the value is [printed] when the loop is left. *)
Fixpoint unit_loop (gaia : Civ.t) (fuel : nat) (i printed : Z) : M Z :=
  if (i <? size (Civ.Units gaia)) && (printed <? 10) then
    match fuel with
    | O => ([], OutOfFuel)
    | S fuel' =>
        unit <- index vUnits (Civ.Units gaia) i ;;
        printed' <-
          (if negb (str_empty (Unit.Name unit)) then
             print cout ("  [" ++ dec (Unit.ID unit) ++ "] " ++ Unit.Name unit
                         ++ " (HP: " ++ dec (Unit.HitPoints unit) ++ ")") ;;
             ret (SizeT.incr printed)
           else ret printed) ;;
        unit_loop gaia fuel' (SizeT.incr i) printed'
    end
  else ret printed.

(** main.cpp:52-66 *)
Definition units_section (df : DatFile.t) : M unit :=
  civs <- read mCivs (DatFile.Civs df) ;;
  if negb (empty civs) then
    civs0 <- read mCivs (DatFile.Civs df) ;;
    gaia <- index vCivs civs0 0 ;;
    print cout ("=== Units in " ++ Civ.Name gaia ++ " ("
                ++ dec (size (Civ.Units gaia)) ++ ") ===") ;;
    printed <- unit_loop gaia (Z.to_nat (size (Civ.Units gaia))) 0 0 ;;
    if printed <? size (Civ.Units gaia) then
      print cout ("  ... and " ++ dec (SizeT.sub (size (Civ.Units gaia)) printed)
                  ++ " more")
    else ret tt
  else ret tt.

(** main.cpp:29-75, what follows a successful load. *)
Definition report (df : DatFile.t) : M unit :=
  fv <- read mFileVersion (DatFile.FileVersion df) ;;
  print cout ("File version: " ++ fv) ;;
  print cout "" ;;
  (* Civilizations *)
  ncivs <- read mCivs (size (DatFile.Civs df)) ;;
  print cout ("=== Civilizations (" ++ dec ncivs ++ ") ===") ;;
  civ_loop df (Z.to_nat (size (DatFile.Civs df))) 0 ;;
  print cout "" ;;
  (* Technologies *)
  ntechs <- read mTechs (size (DatFile.Techs df)) ;;
  print cout ("=== Technologies (" ++ dec ntechs ++ ") ===") ;;
  ntechs' <- read mTechs (size (DatFile.Techs df)) ;;
  let techLimit := SizeT.min ntechs' 10 in
  tech_loop df techLimit (Z.to_nat techLimit) 0 ;;
  ntechs'' <- read mTechs (size (DatFile.Techs df)) ;;
  (if techLimit <? ntechs'' then
     ntechs3 <- read mTechs (size (DatFile.Techs df)) ;;
     print cout ("  ... and " ++ dec (SizeT.sub ntechs3 techLimit) ++ " more")
   else ret tt) ;;
  print cout "" ;;
  (* Units from Gaia (civ 0) *)
  units_section df ;;
  print cout "" ;;
  (* Summary counts *)
  print cout "=== Summary ===" ;;
  ngraphics <- read mGraphics (size (DatFile.Graphics df)) ;;
  print cout ("  Graphics: " ++ dec ngraphics) ;;
  nsounds <- read mSounds (size (DatFile.Sounds df)) ;;
  print cout ("  Sounds:   " ++ dec nsounds) ;;
  neffects <- read mEffects (size (DatFile.Effects df)) ;;
  print cout ("  Effects:  " ++ dec neffects).

Definition dat_suffix : string := "/resources/_common/dat/empires2_x2_p1.dat".

Definition main (cl : CommandLine) : M unit :=
  (if argc cl <? 2 then
     a0 <- argv_at cl 0 ;;
     print cerr ("Usage: " ++ a0 ++ " <path-to-AoE2DE-game-dir>") ;;
     return_ 1
   else ret tt) ;;
  gameDir <- argv_at cl 1 ;;
  let datPath := gameDir ++ dat_suffix in
  print cout ("Loading: " ++ datPath) ;;
  emit EvNew ;;
  let df := DatFile.fresh in
  emit (EvSetGameVersion GV_LatestDE2) ;;
  let df := DatFile.setGameVersion GV_LatestDE2 df in
  df <- try_catch (load decoder df datPath)
          (fun e => print cerr ("Failed to load dat file: " ++ what e) ;;
                    return_ 1) ;;
  report df ;;
  return_ 0.

End Client.

(** ** What a run shows *)

(** The lines written to [std::cout], in order. *)
Fixpoint cout_lines (t : trace) : list string :=
  match t with
  | [] => []
  | EvOut cout l :: t' => l :: cout_lines t'
  | _ :: t' => cout_lines t'
  end.

(** The lines written to [std::cerr], in order. *)
Fixpoint cerr_lines (t : trace) : list string :=
  match t with
  | [] => []
  | EvOut cerr l :: t' => l :: cerr_lines t'
  | _ :: t' => cerr_lines t'
  end.

(** The units of the civilization the client calls Gaia, [df.Civs[0]]. *)
Definition gaia_units (df : DatFile.t) : list Unit.t :=
  match DatFile.Civs df with
  | gaia :: _ => Civ.Units gaia
  | [] => []
  end.

Definition vec_len (df : DatFile.t) (v : vector) : nat :=
  match v with
  | vCivs => List.length (DatFile.Civs df)
  | vTechs => List.length (DatFile.Techs df)
  | vUnits => List.length (gaia_units df)
  end.

(** What the client may do once [df] is loaded: write to [std::cout], read
    members of [df], and index a vector below its number of elements. *)
Definition allowed (df : DatFile.t) (e : event) : Prop :=
  match e with
  | EvOut cout _ => True
  | EvRead _ => True
  | EvIndex v i => 0 <= i < Z.of_nat (vec_len df v)
  | _ => False
  end.

(** [m] completes normally with value [a], having written the lines [out]
    and done only what is allowed on [df]. *)
Definition prints {A : Type} (df : DatFile.t) (m : M A) (out : list string) (a : A)
  : Prop :=
  exists t, m = (t, Value a) /\ cout_lines t = out /\ Forall (allowed df) t.

(** ** The listing the client prints, as list functions *)

Definition named_tech (t : Tech.t) : bool := negb (str_empty (Tech.Name t)).
Definition named_unit (u : Unit.t) : bool := negb (str_empty (Unit.Name u)).

Definition civ_row (i : Z) (c : Civ.t) : string :=
  "  [" ++ dec i ++ "] " ++ Civ.Name c.

Definition tech_row (i : Z) (t : Tech.t) : string :=
  "  [" ++ dec i ++ "] " ++ Tech.Name t.

Definition unit_row (u : Unit.t) : string :=
  "  [" ++ dec (Unit.ID u) ++ "] " ++ Unit.Name u
  ++ " (HP: " ++ dec (Unit.HitPoints u) ++ ")".

Definition more_line (n : Z) : string := "  ... and " ++ dec n ++ " more".

(** One row per civilization, numbered from [i]. *)
Fixpoint civ_rows (i : Z) (l : list Civ.t) : list string :=
  match l with
  | [] => []
  | c :: l' => civ_row i c :: civ_rows (i + 1) l'
  end.

(** One row per technology with a name; slots are numbered from [i] and an
    unnamed slot uses up its number. *)
Fixpoint tech_rows (i : Z) (l : list Tech.t) : list string :=
  match l with
  | [] => []
  | t :: l' =>
      if named_tech t then tech_row i t :: tech_rows (i + 1) l'
      else tech_rows (i + 1) l'
  end.

(** The elements [v.size()] accounts for: all of them, for a vector with
    fewer than [2^64] elements. *)
Definition elements {A : Type} (v : list A) : list A :=
  firstn (Z.to_nat (size v)) v.

Definition civ_listing (df : DatFile.t) : list string :=
  ("=== Civilizations (" ++ dec (size (DatFile.Civs df)) ++ ") ===")
  :: civ_rows 0 (elements (DatFile.Civs df)).

(** The "... and N more" line of the technologies: present when there are
    more than ten slots, and [N] counts the slots after the tenth. *)
Definition tech_more (df : DatFile.t) : list string :=
  if 10 <? size (DatFile.Techs df)
  then [more_line (size (DatFile.Techs df) - 10)]
  else [].

Definition tech_listing (df : DatFile.t) : list string :=
  ("=== Technologies (" ++ dec (size (DatFile.Techs df)) ++ ") ===")
  :: (tech_rows 0 (firstn 10 (elements (DatFile.Techs df))) ++ tech_more df)%list.

(** The units that still get a row when [printed] rows are out. *)
Definition taken (printed : Z) (l : list Unit.t) : list Unit.t :=
  firstn (Z.to_nat (10 - printed)) (filter named_unit l).

(** The units that get a row: the first ten that have a name. *)
Definition printed_units (gaia : Civ.t) : list Unit.t :=
  firstn 10 (filter named_unit (elements (Civ.Units gaia))).

(** The "... and N more" line of the units: present when fewer rows were
    printed than there are units, and [N] counts every unit without a row. *)
Definition unit_more (gaia : Civ.t) : list string :=
  let printed := Z.of_nat (List.length (printed_units gaia)) in
  if printed <? size (Civ.Units gaia)
  then [more_line (size (Civ.Units gaia) - printed)]
  else [].

Definition unit_listing (df : DatFile.t) : list string :=
  match DatFile.Civs df with
  | [] => []
  | gaia :: _ =>
      ("=== Units in " ++ Civ.Name gaia ++ " ("
       ++ dec (size (Civ.Units gaia)) ++ ") ===")
      :: (map unit_row (printed_units gaia) ++ unit_more gaia)%list
  end.

Definition summary (df : DatFile.t) : list string :=
  [ "=== Summary ===";
    "  Graphics: " ++ dec (size (DatFile.Graphics df));
    "  Sounds:   " ++ dec (size (DatFile.Sounds df));
    "  Effects:  " ++ dec (size (DatFile.Effects df)) ].

(** Everything a run writes to [std::cout] after a successful load. *)
Definition report_lines (df : DatFile.t) : list string :=
  ([("File version: " ++ DatFile.FileVersion df)%string; ""]
   ++ civ_listing df ++ [""]
   ++ tech_listing df ++ [""]
   ++ unit_listing df ++ [""]
   ++ summary df)%list.

(** The object on which the client calls [load], and the file it names. *)
Definition declared_df : DatFile.t :=
  DatFile.setGameVersion GV_LatestDE2 DatFile.fresh.

Definition datPath (gameDir : string) : string := gameDir ++ dat_suffix.

(** The file names handed to the decoder in a run, one per [load]. *)
Fixpoint load_calls (t : trace) : list string :=
  match t with
  | [] => []
  | EvLoad _ fileName :: t' => fileName :: load_calls t'
  | _ :: t' => load_calls t'
  end.

(** The data file the command line designates, if it names a game
    directory. *)
Definition designated_file (cl : CommandLine) : option string :=
  match args cl with
  | [] => None
  | gameDir :: _ => Some (datPath gameDir)
  end.

(** The spec's reading of the interface between client and decoder: the
    decoder is given the bytes of the data file, so that two command lines
    designating files with the same bytes ([content] maps a path to the bytes
    stored there) hand the decoder the same input. *)
Definition load_is_a_function_of_bytes (content : string -> list Byte.byte) : Prop :=
  forall (decoder : Decoder) (cl1 cl2 : CommandLine) (f1 f2 : string),
    designated_file cl1 = Some f1 ->
    designated_file cl2 = Some f2 ->
    content f1 = content f2 ->
    load_calls (fst (main decoder cl1)) = load_calls (fst (main decoder cl2)).

(** ** Reading a printed listing back *)

Definition is_row (l : string) : bool := prefix "  [" l.
Definition is_more_line (l : string) : bool := prefix "  ... and " l.

(** The lines after the first one that starts with [header]. *)
Fixpoint after_header (header : string) (out : list string) : list string :=
  match out with
  | [] => []
  | l :: out' => if prefix header l then out' else after_header header out'
  end.

(** The lines before the first blank one. *)
Fixpoint until_blank (out : list string) : list string :=
  match out with
  | [] => []
  | l :: out' => if str_empty l then [] else l :: until_blank out'
  end.

(** The rows and the "... and N more" line printed under [header]. *)
Definition block (header : string) (out : list string) : list string :=
  until_blank (after_header header out).

(** The wording "an ... and N more line exactly when entries remain beyond
    those printed", for a block listing a collection of [total] entries. *)
Definition more_line_iff_entries_remain (b : list string) (total : Z) : Prop :=
  existsb is_more_line b = true
  <-> Z.of_nat (List.length (filter is_row b)) < total.

(** ** The query facade of the archive *)

Module Archive.

(** Modelled from the spec: the failure of a post-load query (spec,
    sections 4.6 and 7); the facade is not part of the sources. *)
Inductive QueryError : Type := NotFound.

(** Modelled from the spec: the number of entries of a collection, unused
    slots included. *)
Definition count {A : Type} (collection : list A) : Z :=
  Z.of_nat (List.length collection).

(** Modelled from the spec: a lookup by index returns the record stored at
    that position and fails with [NotFound] outside [0 .. count - 1]. *)
Definition lookup {A : Type} (collection : list A) (index : Z)
  : QueryError + A :=
  if (index <? 0) || (count collection <=? index) then inl NotFound
  else match nth_error collection (Z.to_nat index) with
       | Some record => inr record
       | None => inl NotFound
       end.

(** Modelled from the spec: the read-only accessors listed in section 6,
    over the members of the loaded object. *)
Definition FormatVersion (a : DatFile.t) : string := DatFile.FileVersion a.
Definition CivilizationCount (a : DatFile.t) : Z := count (DatFile.Civs a).
Definition Civilization (a : DatFile.t) (index : Z) := lookup (DatFile.Civs a) index.
Definition UnitCount (c : Civ.t) : Z := count (Civ.Units c).
Definition Unit (c : Civ.t) (index : Z) := lookup (Civ.Units c) index.
Definition TechnologyCount (a : DatFile.t) : Z := count (DatFile.Techs a).
Definition Technology (a : DatFile.t) (index : Z) := lookup (DatFile.Techs a) index.
Definition GraphicCount (a : DatFile.t) : Z := count (DatFile.Graphics a).
Definition Graphic (a : DatFile.t) (index : Z) := lookup (DatFile.Graphics a) index.
Definition SoundCount (a : DatFile.t) : Z := count (DatFile.Sounds a).
Definition Sound (a : DatFile.t) (index : Z) := lookup (DatFile.Sounds a) index.
Definition EffectCount (a : DatFile.t) : Z := count (DatFile.Effects a).
Definition Effect (a : DatFile.t) (index : Z) := lookup (DatFile.Effects a) index.

End Archive.

(** ** Sample runs *)

Definition sample_df : DatFile.t :=
  DatFile.mk (Some GV_LatestDE2) "VER 7.8"
    [Civ.mk "Gaia" [Unit.mk 4 "Scout" 30; Unit.mk 5 "" 0]; Civ.mk "Britons" []]
    [Tech.mk "Loom"; Tech.mk ""; Tech.mk "Wheel"]
    [a_graphic] [] [an_effect; an_effect].

Definition sample_cl : CommandLine := mk_cl "genie" ["/g"].

Definition loads_sample : Decoder := fun _ _ => Loaded sample_df.

Definition fails_corrupt : Decoder :=
  fun _ _ => Threw (mk_exception CorruptArchive "inflate failed").

(** An archive whose only technology slot is unused. *)
Definition unused_slot_df : DatFile.t :=
  DatFile.mk (Some GV_LatestDE2) "VER 7.8" [] [Tech.mk ""] [] [] [].

Definition loads_unused_slot : Decoder := fun _ _ => Loaded unused_slot_df.

(** An archive with ten technology slots, three of them named. *)
Definition ten_slots_df : DatFile.t :=
  DatFile.mk (Some GV_LatestDE2) "VER 7.8" []
    [Tech.mk ""; Tech.mk "Loom"; Tech.mk ""; Tech.mk ""; Tech.mk "Wheel";
     Tech.mk ""; Tech.mk ""; Tech.mk ""; Tech.mk "Masonry"; Tech.mk ""]
    [] [] [].

Definition loads_ten_slots : Decoder := fun _ _ => Loaded ten_slots_df.

(** Every path holds the same (empty) bytes. *)
Definition same_bytes_everywhere : string -> list Byte.byte := fun _ => [].

(** A decoder that finds the sample archive under [/g] only. *)
Definition loads_sample_under_g : Decoder :=
  fun _ fileName =>
    if String.eqb fileName (datPath "/g") then Loaded sample_df
    else Threw (mk_exception TruncatedData "unexpected end of file").

(** The sample archive with other units for the Britons, other figures in
    Gaia's unused unit slot, an eleventh technology slot aside and other
    leaf records behind the same counts. *)
Definition sample_variant_df : DatFile.t :=
  DatFile.mk None "VER 7.8"
    [Civ.mk "Gaia" [Unit.mk 4 "Scout" 30; Unit.mk 99 "" 7];
     Civ.mk "Britons" [Unit.mk 1 "Archer" 35]]
    [Tech.mk "Loom"; Tech.mk ""; Tech.mk "Wheel"]
    [a_graphic] [] [an_effect; an_effect].

Definition loads_sample_variant : Decoder := fun _ _ => Loaded sample_variant_df.




(** ** Count-prefixed arrays *)

Module Cursor.

(** Modelled from the spec: the byte cursor of section 4.1, a buffer and a
    read offset that only moves forward; the decoder is not part of the
    sources. *)
Record t : Type := mk { buffer : list Byte.byte; offset : nat }.

(** Modelled from the spec: read-fixed(width) returns exactly [width] bytes
    and advances the offset by [width]; it fails with [TruncatedData] when
    the read would exceed what remains of the buffer. *)
Definition read_fixed (width : nat) (c : t) : LoadError + (list Byte.byte * t) :=
  if (offset c + width <=? List.length (buffer c))%nat
  then inr (firstn width (skipn (offset c) (buffer c)),
            mk (buffer c) (offset c + width))
  else inl TruncatedData.

(** Modelled from the spec: the format's little-endian convention for an
    unsigned integer. *)
Fixpoint le_value (bytes : list Byte.byte) : Z :=
  match bytes with
  | [] => 0
  | b :: bytes' => Z.of_N (Byte.to_N b) + 256 * le_value bytes'
  end.

(** Modelled from the spec: an integer count of [width] bytes. *)
Definition read_count (width : nat) (c : t) : LoadError + (Z * t) :=
  match read_fixed width c with
  | inl e => inl e
  | inr (bytes, c') => inr (le_value bytes, c')
  end.

(** The count declared at the cursor by the [width] bytes that follow. *)
Definition declared_count (width : nat) (c : t) : Z :=
  le_value (firstn width (skipn (offset c) (buffer c))).

Section Array.

Variable A : Type.

(** The reader of one record, whatever its layout. *)
Variable read_record : t -> LoadError + (A * t).

(** Modelled from the spec: exactly [n] records, one after the other, unused
    slots like the others; a short read inside a record fails the whole. *)
Fixpoint read_records (n : nat) (c : t) : LoadError + (list A * t) :=
  match n with
  | O => inr ([], c)
  | S n' =>
      match read_record c with
      | inl e => inl e
      | inr (a, c1) =>
          match read_records n' c1 with
          | inl e => inl e
          | inr (l, c2) => inr (a :: l, c2)
          end
      end
  end.

(** Modelled from the spec: a count-prefixed array (section 4.4): the count
    first, then exactly that many records; a count of zero gives the empty
    sequence. *)
Definition read_array (width : nat) (c : t) : LoadError + (list A * t) :=
  match read_count width c with
  | inl e => inl e
  | inr (n, c1) => read_records (Z.to_nat n) c1
  end.

End Array.

End Cursor.

(** A record layout for the sample bytes below: one byte for the length of
    the name, then the name. *)
Definition sample_read_tech (c : Cursor.t) : LoadError + (Tech.t * Cursor.t) :=
  match Cursor.read_fixed 1 c with
  | inl e => inl e
  | inr (len, c1) =>
      match Cursor.read_fixed (Z.to_nat (Cursor.le_value len)) c1 with
      | inl e => inl e
      | inr (name, c2) => inr (Tech.mk (string_of_list_byte name), c2)
      end
  end.

(** The technology array of [ten_slots_df] in that layout, behind a count of
    two bytes. *)
Definition ten_slots_bytes : list Byte.byte :=
  ([Byte.x0a; Byte.x00]
   ++ [Byte.x00]
   ++ Byte.x04 :: list_byte_of_string "Loom"
   ++ [Byte.x00; Byte.x00]
   ++ Byte.x05 :: list_byte_of_string "Wheel"
   ++ [Byte.x00; Byte.x00; Byte.x00]
   ++ Byte.x07 :: list_byte_of_string "Masonry"
   ++ [Byte.x00])%list.

(** * Proofs *)

(** ** [size_t] and vectors *)

Lemma modulus_pos : 0 < SizeT.modulus.
Proof. reflexivity. Qed.

Lemma wrap_small (z : Z) : 0 <= z < SizeT.modulus -> SizeT.wrap z = z.
Proof. intros H. unfold SizeT.wrap. apply Z.mod_small; exact H. Qed.

Lemma size_range {A : Type} (v : list A) :
  0 <= size v < SizeT.modulus /\ size v <= Z.of_nat (List.length v).
Proof.
  unfold size, SizeT.wrap. pose proof modulus_pos as Hm. split.
  - apply Z.mod_pos_bound; exact Hm.
  - apply Z.mod_le; lia.
Qed.

Lemma size_small {A : Type} (v : list A) :
  Z.of_nat (List.length v) < SizeT.modulus -> size v = Z.of_nat (List.length v).
Proof. intros H. unfold size. apply wrap_small. lia. Qed.

Lemma size_nil {A : Type} : size (@nil A) = 0.
Proof. reflexivity. Qed.

Lemma elements_small {A : Type} (v : list A) :
  Z.of_nat (List.length v) < SizeT.modulus -> elements v = v.
Proof.
  intros H. unfold elements. rewrite (size_small v H), Nat2Z.id.
  apply firstn_all.
Qed.

Lemma length_elements {A : Type} (v : list A) :
  Z.of_nat (List.length (elements v)) = size v.
Proof.
  unfold elements. destruct (size_range v) as [[H0 _] Hle].
  rewrite length_firstn. lia.
Qed.

Lemma incr_below (i n : Z) :
  0 <= i < n -> n < SizeT.modulus -> SizeT.incr i = i + 1.
Proof. intros Hi Hn. unfold SizeT.incr. apply wrap_small. lia. Qed.

Lemma sub_below (a b : Z) :
  0 <= b <= a -> a < SizeT.modulus -> SizeT.sub a b = a - b.
Proof. intros Hb Ha. unfold SizeT.sub. apply wrap_small. lia. Qed.

Lemma vec_at_nth {A : Type} (v : list A) (i : Z) :
  0 <= i < Z.of_nat (List.length v) ->
  exists a, vec_at v i = Some a /\ nth_error v (Z.to_nat i) = Some a.
Proof.
  intros Hi. unfold vec_at.
  replace ((0 <=? i) && (i <? Z.of_nat (List.length v))) with true
    by (symmetry; apply andb_true_iff; split; [apply Z.leb_le | apply Z.ltb_lt]; lia).
  destruct (nth_error v (Z.to_nat i)) as [a|] eqn:E.
  - exists a. split; reflexivity.
  - apply nth_error_None in E. lia.
Qed.

Lemma skipn_cons_nth {A : Type} (v : list A) :
  forall (n : nat) (a : A),
    nth_error v n = Some a -> skipn n v = a :: skipn (S n) v.
Proof.
  induction v as [|x v IH]; intros [|n] a H; simpl in *; try discriminate.
  - injection H as ->. reflexivity.
  - apply IH. exact H.
Qed.

(** ** Rules for [prints] *)

Lemma cout_lines_app (t1 t2 : trace) :
  cout_lines (t1 ++ t2)%list = (cout_lines t1 ++ cout_lines t2)%list.
Proof.
  induction t1 as [|[[| ] l| | | | | ] t1 IH]; simpl; rewrite ?IH; reflexivity.
Qed.

Lemma cerr_lines_app (t1 t2 : trace) :
  cerr_lines (t1 ++ t2)%list = (cerr_lines t1 ++ cerr_lines t2)%list.
Proof.
  induction t1 as [|[[| ] l| | | | | ] t1 IH]; simpl; rewrite ?IH; reflexivity.
Qed.

Lemma load_calls_app (t1 t2 : trace) :
  load_calls (t1 ++ t2)%list = (load_calls t1 ++ load_calls t2)%list.
Proof.
  induction t1 as [|[[| ] l| | | | | ] t1 IH]; simpl; rewrite ?IH; reflexivity.
Qed.

Section Rules.

Variable df : DatFile.t.

Lemma prints_ret {A : Type} (a : A) : prints df (ret a) [] a.
Proof. exists []. repeat split. constructor. Qed.

Lemma prints_bind {A B : Type} (m : M A) (k : A -> M B) o1 o2 a b :
  prints df m o1 a -> prints df (k a) o2 b ->
  prints df (bind m k) (o1 ++ o2)%list b.
Proof.
  intros (t1 & -> & <- & F1) (t2 & E2 & <- & F2).
  exists (t1 ++ t2)%list. simpl. rewrite E2. repeat split.
  - apply cout_lines_app.
  - apply Forall_app. split; assumption.
Qed.

Lemma prints_read {A B : Type} (m : member) (a : A) (k : A -> M B) out b :
  prints df (k a) out b -> prints df (bind (read m a) k) out b.
Proof.
  intros H. change out with ([] ++ out)%list.
  apply prints_bind with (a := a); [|exact H].
  exists [EvRead m]. repeat split. repeat constructor.
Qed.

Lemma prints_print {B : Type} (l : string) (k : unit -> M B) out b :
  prints df (k tt) out b -> prints df (bind (print cout l) k) (l :: out) b.
Proof.
  intros H. change (l :: out) with ([l] ++ out)%list.
  apply prints_bind with (a := tt); [|exact H].
  exists [EvOut cout l]. repeat split. repeat constructor.
Qed.

Lemma prints_index {A B : Type} (name : vector) (v : list A) (i : Z)
      (k : A -> M B) out b a :
  List.length v = vec_len df name ->
  0 <= i < Z.of_nat (List.length v) ->
  nth_error v (Z.to_nat i) = Some a ->
  prints df (k a) out b -> prints df (bind (index name v i) k) out b.
Proof.
  intros Hlen Hi Hnth H. change out with ([] ++ out)%list.
  apply prints_bind with (a := a); [|exact H].
  destruct (vec_at_nth v i Hi) as (a' & Hat & Hnth').
  assert (a' = a) by congruence. subst a'.
  exists [EvIndex name i]. unfold index. rewrite Hat. repeat split.
  constructor; [|constructor]. simpl. rewrite <- Hlen. exact Hi.
Qed.

Lemma prints_then {A B : Type} (m : M A) (k : A -> M B) o1 o2 out a b :
  prints df m o1 a -> prints df (k a) o2 b -> out = (o1 ++ o2)%list ->
  prints df (bind m k) out b.
Proof. intros H1 H2 ->. eapply prints_bind; eassumption. Qed.

End Rules.

(** ** The three loops *)

Section Loops.

Variable df : DatFile.t.

Lemma prints_print_last (l : string) : prints df (print cout l) [l] tt.
Proof. exists [EvOut cout l]. repeat split. repeat constructor. Qed.

Lemma civ_loop_prints :
  forall (k fuel : nat) (i : Z),
    0 <= i -> Z.of_nat k = size (DatFile.Civs df) - i -> (k <= fuel)%nat ->
    prints df (civ_loop df fuel i)
           (civ_rows i (firstn k (skipn (Z.to_nat i) (DatFile.Civs df)))) tt.
Proof.
  destruct (size_range (DatFile.Civs df)) as [[Hs0 Hsm] Hsl].
  induction k as [|k IH]; intros fuel i Hi Hk Hf.
  - assert (E : (i <? size (DatFile.Civs df)) = false) by (apply Z.ltb_ge; lia).
    destruct fuel; cbn [civ_loop]; apply prints_read; rewrite E; apply prints_ret.
  - assert (E : (i <? size (DatFile.Civs df)) = true) by (apply Z.ltb_lt; lia).
    destruct fuel as [|fuel]; [lia|].
    cbn [civ_loop]. apply prints_read. rewrite E. apply prints_read.
    assert (Hin : 0 <= i < Z.of_nat (List.length (DatFile.Civs df))) by lia.
    destruct (vec_at_nth _ _ Hin) as (c & _ & Hnth).
    rewrite (skipn_cons_nth _ _ _ Hnth). cbn [firstn civ_rows].
    eapply prints_index; [reflexivity | exact Hin | exact Hnth |].
    apply prints_print.
    rewrite (incr_below i (size (DatFile.Civs df))) by lia.
    replace (S (Z.to_nat i)) with (Z.to_nat (i + 1)) by lia.
    apply IH; lia.
Qed.

Lemma tech_loop_prints (techLimit : Z) :
  techLimit <= size (DatFile.Techs df) ->
  forall (k fuel : nat) (i : Z),
    0 <= i -> Z.of_nat k = techLimit - i -> (k <= fuel)%nat ->
    prints df (tech_loop df techLimit fuel i)
           (tech_rows i (firstn k (skipn (Z.to_nat i) (DatFile.Techs df)))) tt.
Proof.
  intros HL. destruct (size_range (DatFile.Techs df)) as [[Hs0 Hsm] Hsl].
  induction k as [|k IH]; intros fuel i Hi Hk Hf.
  - assert (E : (i <? techLimit) = false) by (apply Z.ltb_ge; lia).
    destruct fuel; cbn [tech_loop]; rewrite E; apply prints_ret.
  - assert (E : (i <? techLimit) = true) by (apply Z.ltb_lt; lia).
    destruct fuel as [|fuel]; [lia|].
    cbn [tech_loop]. rewrite E. apply prints_read.
    assert (Hin : 0 <= i < Z.of_nat (List.length (DatFile.Techs df))) by lia.
    destruct (vec_at_nth _ _ Hin) as (t & _ & Hnth).
    rewrite (skipn_cons_nth _ _ _ Hnth). cbn [firstn tech_rows].
    eapply prints_index; [reflexivity | exact Hin | exact Hnth |].
    change (negb (str_empty (Tech.Name t))) with (named_tech t).
    rewrite (incr_below i (size (DatFile.Techs df))) by lia.
    replace (S (Z.to_nat i)) with (Z.to_nat (i + 1)) by lia.
    destruct (named_tech t).
    + eapply prints_then with (o1 := [tech_row i t]);
        [ | apply IH; lia | reflexivity].
      apply prints_read.
      eapply prints_index; [reflexivity | exact Hin | exact Hnth |].
      apply prints_print_last.
    + eapply prints_then with (o1 := []);
        [apply prints_ret | apply IH; lia | reflexivity].
Qed.

Lemma unit_loop_prints (gaia : Civ.t) :
  gaia_units df = Civ.Units gaia ->
  forall (k fuel : nat) (i printed : Z),
    0 <= i -> Z.of_nat k = size (Civ.Units gaia) - i -> (k <= fuel)%nat ->
    0 <= printed <= 10 ->
    let rows := taken printed (firstn k (skipn (Z.to_nat i) (Civ.Units gaia))) in
    prints df (unit_loop gaia fuel i printed)
           (map unit_row rows) (printed + Z.of_nat (List.length rows)).
Proof.
  intros Hg. destruct (size_range (Civ.Units gaia)) as [[Hs0 Hsm] Hsl].
  induction k as [|k IH]; intros fuel i printed Hi Hk Hf Hp rows; subst rows.
  - assert (E : (i <? size (Civ.Units gaia)) = false) by (apply Z.ltb_ge; lia).
    unfold taken. cbn [firstn filter]. rewrite firstn_nil. cbn [map List.length].
    rewrite Z.add_0_r.
    destruct fuel; cbn [unit_loop]; rewrite E; apply prints_ret.
  - assert (E : (i <? size (Civ.Units gaia)) = true) by (apply Z.ltb_lt; lia).
    destruct (Z.ltb_spec printed 10) as [Hlt|Hge].
    + destruct fuel as [|fuel]; [lia|].
      cbn [unit_loop]. rewrite E.
      replace (printed <? 10) with true by (symmetry; apply Z.ltb_lt; lia).
      cbn [andb].
      assert (Hin : 0 <= i < Z.of_nat (List.length (Civ.Units gaia))) by lia.
      destruct (vec_at_nth _ _ Hin) as (u & _ & Hnth).
      rewrite (skipn_cons_nth _ _ _ Hnth). cbn [firstn].
      eapply prints_index;
        [unfold vec_len; rewrite Hg; reflexivity | exact Hin | exact Hnth |].
      change (negb (str_empty (Unit.Name u))) with (named_unit u).
      rewrite (incr_below i (size (Civ.Units gaia))) by lia.
      replace (S (Z.to_nat i)) with (Z.to_nat (i + 1)) by lia.
      unfold taken. cbn [filter].
      destruct (named_unit u).
      * replace (Z.to_nat (10 - printed))
          with (S (Z.to_nat (10 - (printed + 1)))) by lia.
        cbn [firstn map List.length].
        rewrite (incr_below printed 10) by (lia || reflexivity).
        rewrite Nat2Z.inj_succ, <- Z.add_1_l, Z.add_assoc.
        eapply prints_then with (o1 := [unit_row u]) (a := printed + 1).
        -- apply prints_print. apply prints_ret.
        -- apply (IH fuel (i + 1) (printed + 1)); lia.
        -- reflexivity.
      * eapply prints_then with (o1 := []) (a := printed).
        -- apply prints_ret.
        -- apply (IH fuel (i + 1) printed); lia.
        -- reflexivity.
    + assert (printed = 10) by lia. subst printed.
      unfold taken. change (Z.to_nat (10 - 10)) with 0%nat.
      cbn [firstn map List.length]. rewrite Z.add_0_r.
      destruct fuel; cbn [unit_loop]; rewrite E;
        change (10 <? 10) with false; cbn [andb]; apply prints_ret.
Qed.

Lemma units_section_prints : prints df (units_section df) (unit_listing df) tt.
Proof.
  unfold units_section, unit_listing. apply prints_read.
  destruct (DatFile.Civs df) as [|gaia rest] eqn:Ecivs; cbn [empty negb].
  - apply prints_ret.
  - apply prints_read.
    eapply prints_index with (a := gaia);
      [unfold vec_len; rewrite Ecivs; reflexivity
      | cbn [List.length]; lia | reflexivity |].
    apply prints_print.
    destruct (size_range (Civ.Units gaia)) as [[Hs0 Hsm] Hsl].
    assert (Hg : gaia_units df = Civ.Units gaia)
      by (unfold gaia_units; rewrite Ecivs; reflexivity).
    pose proof (unit_loop_prints gaia Hg (Z.to_nat (size (Civ.Units gaia)))
                  (Z.to_nat (size (Civ.Units gaia))) 0 0) as Hloop.
    cbv zeta in Hloop.
    change (taken 0 (firstn (Z.to_nat (size (Civ.Units gaia)))
                       (skipn (Z.to_nat 0) (Civ.Units gaia))))
      with (printed_units gaia) in Hloop.
    rewrite Z.add_0_l in Hloop.
    eapply prints_then; [apply Hloop; lia | | reflexivity].
    unfold unit_more.
    assert (Hle : Z.of_nat (List.length (printed_units gaia)) <= size (Civ.Units gaia)).
    { rewrite <- (length_elements (Civ.Units gaia)). apply inj_le.
      unfold printed_units. rewrite length_firstn.
      etransitivity; [apply Nat.le_min_r | apply filter_length_le]. }
    destruct (Z.of_nat (List.length (printed_units gaia)) <? size (Civ.Units gaia)).
    + rewrite sub_below by lia. apply prints_print_last.
    + apply prints_ret.
Qed.

End Loops.

(** ** The report and [main] *)

Lemma firstn_ten_elements {A : Type} (v : list A) :
  firstn 10 (elements v) = firstn (Z.to_nat (SizeT.min (size v) 10)) v.
Proof.
  unfold elements. rewrite firstn_firstn. f_equal.
  destruct (size_range v) as [[H0 _] _]. unfold SizeT.min.
  destruct (Z.ltb_spec 10 (size v)); lia.
Qed.

Lemma report_prints (df : DatFile.t) : prints df (report df) (report_lines df) tt.
Proof.
  unfold report, report_lines, civ_listing, tech_listing, summary.
  cbn [app]. apply prints_read. apply prints_print. apply prints_print.
  apply prints_read. apply prints_print.
  destruct (size_range (DatFile.Civs df)) as [[Hc0 Hcm] Hcl].
  destruct (size_range (DatFile.Techs df)) as [[Ht0 Htm] Htl].
  eapply prints_then;
    [ apply (civ_loop_prints df (Z.to_nat (size (DatFile.Civs df)))); lia
    | | reflexivity ].
  cbn [app]. apply prints_print. apply prints_read. apply prints_print.
  apply prints_read.
  rewrite firstn_ten_elements, <- app_assoc.
  set (techLimit := SizeT.min (size (DatFile.Techs df)) 10).
  assert (HL : 0 <= techLimit <= size (DatFile.Techs df)).
  { subst techLimit. unfold SizeT.min.
    destruct (Z.ltb_spec 10 (size (DatFile.Techs df))); lia. }
  eapply prints_then;
    [ apply (tech_loop_prints df techLimit (proj2 HL) (Z.to_nat techLimit)); lia
    | | reflexivity ].
  apply prints_read.
  eapply prints_then with (o1 := tech_more df) (a := tt); [ | | reflexivity ].
  - unfold tech_more.
    assert (E : (techLimit <? size (DatFile.Techs df))
                = (10 <? size (DatFile.Techs df))).
    { subst techLimit. unfold SizeT.min.
      destruct (Z.ltb_spec 10 (size (DatFile.Techs df))) as [H|H].
      - apply Z.ltb_lt. exact H.
      - apply Z.ltb_irrefl. }
    rewrite E. destruct (Z.ltb_spec 10 (size (DatFile.Techs df))) as [H|H].
    + apply prints_read. rewrite sub_below by lia.
      replace techLimit with 10
        by (subst techLimit; unfold SizeT.min;
            replace (10 <? size (DatFile.Techs df)) with true
              by (symmetry; apply Z.ltb_lt; exact H); reflexivity).
      apply prints_print_last.
    + apply prints_ret.
  - cbn [app]. apply prints_print.
    eapply prints_then; [apply units_section_prints | | reflexivity].
    cbn [app]. apply prints_print. apply prints_print.
    apply prints_read. apply prints_print.
    apply prints_read. apply prints_print.
    apply prints_read. apply prints_print_last.
Qed.

Lemma argc_ge_2 (a0 gameDir : string) (rest : list string) :
  (argc (mk_cl a0 (gameDir :: rest)) <? 2) = false.
Proof. apply Z.ltb_ge. unfold argc, argv. cbn [args argv0 List.length]. lia. Qed.

Lemma args_of_short (cl : CommandLine) : argc cl < 2 -> args cl = [].
Proof.
  destruct cl as [a0 [|gameDir rest]]; [reflexivity|].
  unfold argc, argv. cbn [args argv0 List.length]. lia.
Qed.

Section Runs.

Variable decoder : Decoder.

(** Fewer than two arguments: the usage message and nothing else. *)
Lemma main_usage (a0 : string) :
  main decoder (mk_cl a0 [])
  = ([EvOut cerr ("Usage: " ++ a0 ++ " <path-to-AoE2DE-game-dir>")], Return 1).
Proof. reflexivity. Qed.

(** A load that throws: the handler's message and exit code 1. *)
Lemma main_failed (a0 gameDir : string) (rest : list string) (e : exception) :
  decoder declared_df (datPath gameDir) = Threw e ->
  main decoder (mk_cl a0 (gameDir :: rest))
  = ([EvOut cout ("Loading: " ++ datPath gameDir);
      EvNew;
      EvSetGameVersion GV_LatestDE2;
      EvLoad (Some GV_LatestDE2) (datPath gameDir);
      EvOut cerr ("Failed to load dat file: " ++ what e)],
     Return 1).
Proof.
  intros H. unfold main. rewrite argc_ge_2.
  unfold load. unfold declared_df, datPath in H. cbn [argv_at argv nth_error args argv0 ret bind].
  rewrite H. reflexivity.
Qed.

(** A load that succeeds: the report on the loaded object and exit code 0. *)
Lemma main_loaded (a0 gameDir : string) (rest : list string) (df : DatFile.t) :
  decoder declared_df (datPath gameDir) = Loaded df ->
  exists t : trace,
    main decoder (mk_cl a0 (gameDir :: rest))
    = (EvOut cout ("Loading: " ++ datPath gameDir)
       :: EvNew
       :: EvSetGameVersion GV_LatestDE2
       :: EvLoad (Some GV_LatestDE2) (datPath gameDir)
       :: t,
       Return 0)
    /\ cout_lines t = report_lines df
    /\ Forall (allowed df) t.
Proof.
  intros H. destruct (report_prints df) as (t & Hrep & Hout & Hall).
  exists t. split; [|split; assumption].
  unfold main. rewrite argc_ge_2.
  unfold load. unfold declared_df, datPath in H. cbn [argv_at argv nth_error args argv0 ret bind].
  rewrite H. cbn [try_catch print emit bind app]. rewrite Hrep.
  cbn [bind return_ app]. rewrite app_nil_r. reflexivity.
Qed.

(** [main] always returns, with 0 or 1: it never indexes out of range and
    the loop model never runs short of iterations. *)
Lemma main_returns (cl : CommandLine) :
  snd (main decoder cl) = Return 0 \/ snd (main decoder cl) = Return 1.
Proof.
  destruct cl as [a0 [|gameDir rest]].
  - right. rewrite main_usage. reflexivity.
  - destruct (decoder declared_df (datPath gameDir)) as [df|e] eqn:E.
    + left. destruct (main_loaded a0 gameDir rest df E) as (t & -> & _).
      reflexivity.
    + right. rewrite (main_failed a0 gameDir rest e E). reflexivity.
Qed.

End Runs.

(** ** Traces made of allowed actions *)

Lemma allowed_cerr_lines (df : DatFile.t) (t : trace) :
  Forall (allowed df) t -> cerr_lines t = [].
Proof.
  induction 1 as [|e t He _ IH]; [reflexivity|].
  destruct e as [[| ] l| | | | | ]; simpl in *; try contradiction; exact IH.
Qed.

Lemma allowed_load_calls (df : DatFile.t) (t : trace) :
  Forall (allowed df) t -> load_calls t = [].
Proof.
  induction 1 as [|e t He _ IH]; [reflexivity|].
  destruct e as [[| ] l| | | | | ]; simpl in *; try contradiction; exact IH.
Qed.

Lemma allowed_index (df : DatFile.t) (t : trace) (v : vector) (i : Z) :
  Forall (allowed df) t -> In (EvIndex v i) t -> 0 <= i < Z.of_nat (vec_len df v).
Proof.
  intros Hall Hin. rewrite Forall_forall in Hall. exact (Hall _ Hin).
Qed.

Lemma allowed_no_load (df : DatFile.t) (t : trace) d f :
  Forall (allowed df) t -> ~ In (EvLoad d f) t.
Proof.
  intros Hall Hin. rewrite Forall_forall in Hall. exact (Hall _ Hin).
Qed.

(** ** The facade *)

Lemma lookup_not_found {A : Type} (v : list A) (i : Z) :
  Archive.lookup v i = inl Archive.NotFound <-> ~ (0 <= i < Archive.count v).
Proof.
  unfold Archive.lookup, Archive.count.
  destruct (Z.ltb_spec i 0) as [Hneg|Hpos]; cbn [orb].
  - split; [lia | reflexivity].
  - destruct (Z.leb_spec (Z.of_nat (List.length v)) i) as [Hhigh|Hlow].
    + split; [lia | reflexivity].
    + destruct (nth_error v (Z.to_nat i)) as [r|] eqn:E.
      * split; [discriminate | lia].
      * apply nth_error_None in E. lia.
Qed.


Lemma length_tech_rows (l : list Tech.t) :
  forall i, List.length (tech_rows i l) = List.length (filter named_tech l).
Proof.
  induction l as [|t l IH]; intros i; [reflexivity|].
  cbn [tech_rows filter]. destruct (named_tech t); cbn [List.length]; rewrite IH; reflexivity.
Qed.

Lemma tech_rows_from (l : list Tech.t) :
  forall (start : Z) (line : string),
    In line (tech_rows start l) ->
    exists (i : nat) (t : Tech.t),
      nth_error l i = Some t /\ named_tech t = true
      /\ line = tech_row (start + Z.of_nat i) t.
Proof.
  induction l as [|t l IH]; intros start line Hin; [contradiction|].
  cbn [tech_rows] in Hin. destruct (named_tech t) eqn:Hnamed.
  - destruct Hin as [<-|Hin].
    + exists 0%nat, t. rewrite Z.add_0_r. repeat split; assumption.
    + destruct (IH _ _ Hin) as (i & t' & Hnth & Hn & ->).
      exists (S i), t'. repeat split; try assumption. f_equal. lia.
  - destruct (IH _ _ Hin) as (i & t' & Hnth & Hn & ->).
    exists (S i), t'. repeat split; try assumption. f_equal. lia.
Qed.

(** * Properties of the client and of the facade *)

(** C8. Started with fewer than two arguments ([argc < 2]), the client writes
    the usage message to [std::cerr] and returns 1; no [DatFile] is
    constructed and no load is attempted. *)
Theorem short_command_line_prints_usage (decoder : Decoder) (cl : CommandLine) :
  argc cl < 2 ->
  main decoder cl
  = ([EvOut cerr ("Usage: " ++ argv0 cl ++ " <path-to-AoE2DE-game-dir>")], Return 1)
  /\ ~ In EvNew (fst (main decoder cl))
  /\ (forall d f, ~ In (EvLoad d f) (fst (main decoder cl))).
Proof.
  intros H. destruct cl as [a0 l]. pose proof (args_of_short _ H) as E.
  cbn [args] in E. subst l. rewrite main_usage. cbn [argv0 fst].
  split; [reflexivity|]. split.
  - intros [F|[]]. discriminate F.
  - intros d f [F|[]]. discriminate F.
Qed.

Lemma short_command_line_prints_usage_witness :
  argc (mk_cl "genie" []) < 2
  /\ main loads_sample (mk_cl "genie" [])
     = ([EvOut cerr "Usage: genie <path-to-AoE2DE-game-dir>"], Return 1).
Proof.
  split; [reflexivity|].
  apply (short_command_line_prints_usage loads_sample (mk_cl "genie" [])).
  reflexivity.
Defined.

(** C3. When the load throws, the client writes one error message to
    [std::cerr] and returns 1; it has written nothing but the "Loading:" line
    to [std::cout] and has read no member and no element of the archive. *)
Theorem failed_load_is_reported_once
        (decoder : Decoder) (cl : CommandLine)
        (gameDir : string) (rest : list string) (e : exception) :
  args cl = gameDir :: rest ->
  decoder declared_df (datPath gameDir) = Threw e ->
  let run := main decoder cl in
  snd run = Return 1
  /\ cerr_lines (fst run) = ["Failed to load dat file: " ++ what e]
  /\ cout_lines (fst run) = ["Loading: " ++ datPath gameDir]
  /\ (forall m, ~ In (EvRead m) (fst run))
  /\ (forall v i, ~ In (EvIndex v i) (fst run)).
Proof.
  intros Hargs Hthrow run. subst run. destruct cl as [a0 l].
  cbn [args] in Hargs. subst l. rewrite (main_failed _ _ _ _ _ Hthrow).
  cbn [fst snd cerr_lines cout_lines]. repeat split.
  - intros m Hin. cbn [In] in Hin.
    repeat (destruct Hin as [Hin|Hin]; [discriminate Hin|]). exact Hin.
  - intros v i Hin. cbn [In] in Hin.
    repeat (destruct Hin as [Hin|Hin]; [discriminate Hin|]). exact Hin.
Qed.

Lemma failed_load_is_reported_once_witness :
  snd (main fails_corrupt sample_cl) = Return 1
  /\ cerr_lines (fst (main fails_corrupt sample_cl))
     = ["Failed to load dat file: inflate failed"].
Proof.
  destruct (failed_load_is_reported_once fails_corrupt sample_cl "/g" []
              (mk_exception CorruptArchive "inflate failed")
              eq_refl eq_refl) as (H1 & H2 & _).
  split; [exact H1 | exact H2].
Defined.

(** C5. In every run, a load is preceded by the declaration of the game
    version: the object on which [load] is called has [GV_LatestDE2]
    declared, and [setGameVersion] comes earlier in the trace. *)
Theorem version_is_declared_before_load
        (decoder : Decoder) (cl : CommandLine)
        (pre post : trace) (declared : option GameVersion) (fileName : string) :
  fst (main decoder cl) = (pre ++ EvLoad declared fileName :: post)%list ->
  declared = Some GV_LatestDE2 /\ In (EvSetGameVersion GV_LatestDE2) pre.
Proof.
  intros H. destruct cl as [a0 [|gameDir rest]].
  - rewrite main_usage in H. cbn [fst] in H.
    destruct pre as [|e1 [|e2 pre]]; discriminate H.
  - destruct (decoder declared_df (datPath gameDir)) as [df|e] eqn:E.
    + destruct (main_loaded decoder a0 gameDir rest df E) as (t & Hm & _ & Hall).
      rewrite Hm in H. cbn [fst] in H.
      destruct pre as [|e1 [|e2 [|e3 [|e4 pre]]]]; cbn [app] in H;
        try discriminate H.
      * injection H as _ _ H3 Hd _ _. subst e3. split.
        -- congruence.
        -- right. right. left. reflexivity.
      * injection H as _ _ _ _ Ht. exfalso.
        apply (allowed_no_load df t declared fileName Hall).
        rewrite Ht. apply in_or_app. right. left. reflexivity.
    + rewrite (main_failed decoder a0 gameDir rest e E) in H. cbn [fst] in H.
      destruct pre as [|e1 [|e2 [|e3 [|e4 [|e5 pre]]]]]; cbn [app] in H;
        try discriminate H.
      * injection H as _ _ H3 Hd _ _. subst e3. split.
        -- congruence.
        -- right. right. left. reflexivity.
      * destruct pre; discriminate H.
Qed.

Lemma version_is_declared_before_load_witness :
  In (EvSetGameVersion GV_LatestDE2)
     [EvOut cout "Loading: /g/resources/_common/dat/empires2_x2_p1.dat";
      EvNew; EvSetGameVersion GV_LatestDE2].
Proof.
  apply (version_is_declared_before_load fails_corrupt sample_cl
           [EvOut cout "Loading: /g/resources/_common/dat/empires2_x2_p1.dat";
            EvNew; EvSetGameVersion GV_LatestDE2]
           [EvOut cerr "Failed to load dat file: inflate failed"]
           (Some GV_LatestDE2)
           "/g/resources/_common/dat/empires2_x2_p1.dat").
  reflexivity.
Defined.

(** C9. After a successful load every [operator[]] of the client is applied
    below the number of elements of its vector, so [Civs[0]] is only read
    from a non-empty collection; with zero civilizations the unit section
    evaluates its guard and nothing else, and the only vector indexed in the
    whole run is the technologies'. *)
Theorem gaia_is_read_under_its_guard
        (decoder : Decoder) (cl : CommandLine)
        (gameDir : string) (rest : list string) (df : DatFile.t) :
  args cl = gameDir :: rest ->
  decoder declared_df (datPath gameDir) = Loaded df ->
  let run := main decoder cl in
  snd run = Return 0
  /\ (forall v i, In (EvIndex v i) (fst run) -> 0 <= i < Z.of_nat (vec_len df v))
  /\ (DatFile.Civs df = [] ->
      units_section df = ([EvRead mCivs], Value tt)
      /\ unit_listing df = []
      /\ forall v i, In (EvIndex v i) (fst run) -> v = vTechs).
Proof.
  intros Hargs Hload run. subst run. destruct cl as [a0 l].
  cbn [args] in Hargs. subst l.
  destruct (main_loaded decoder a0 gameDir rest df Hload) as (t & Hm & _ & Hall).
  rewrite Hm. cbn [fst snd].
  assert (Hrange : forall v i,
             In (EvIndex v i)
                (EvOut cout ("Loading: " ++ datPath gameDir)
                 :: EvNew :: EvSetGameVersion GV_LatestDE2
                 :: EvLoad (Some GV_LatestDE2) (datPath gameDir) :: t) ->
             0 <= i < Z.of_nat (vec_len df v)).
  { intros v i Hin. cbn [In] in Hin.
    repeat (destruct Hin as [Hin|Hin]; [discriminate Hin|]).
    exact (allowed_index df t v i Hall Hin). }
  split; [reflexivity|]. split; [exact Hrange|].
  intros Hnone. split; [|split].
  - unfold units_section. rewrite Hnone. reflexivity.
  - unfold unit_listing. rewrite Hnone. reflexivity.
  - intros v i Hin. specialize (Hrange v i Hin).
    destruct v; [| reflexivity |]; exfalso;
      unfold vec_len, gaia_units in Hrange; rewrite Hnone in Hrange;
      cbn [List.length] in Hrange; lia.
Qed.

Lemma gaia_is_read_under_its_guard_witness :
  snd (main loads_unused_slot sample_cl) = Return 0
  /\ units_section unused_slot_df = ([EvRead mCivs], Value tt).
Proof.
  destruct (gaia_is_read_under_its_guard loads_unused_slot sample_cl "/g" []
              unused_slot_df eq_refl eq_refl) as (H1 & _ & H3).
  split; [exact H1 | exact (proj1 (H3 eq_refl))].
Defined.

(** C2, as the code has it. The client hands the decoder a file name, not
    bytes: a run on a command line naming a game directory makes exactly one
    load call, with the path of the data file under that directory, and two
    decoders that answer alike for that path give the same run. *)
Theorem decoder_is_given_the_path
        (d1 d2 : Decoder) (cl : CommandLine) :
  (forall f, designated_file cl = Some f -> d1 declared_df f = d2 declared_df f) ->
  load_calls (fst (main d1 cl))
  = match designated_file cl with Some f => [f] | None => [] end
  /\ main d1 cl = main d2 cl.
Proof.
  intros Hsame. destruct cl as [a0 [|gameDir rest]].
  - rewrite !main_usage. split; reflexivity.
  - unfold designated_file in *. cbn [args] in *.
    specialize (Hsame _ eq_refl).
    destruct (d1 declared_df (datPath gameDir)) as [df|e] eqn:E1.
    + destruct (main_loaded d1 a0 gameDir rest df E1) as (t1 & Hm1 & _ & Hall1).
      split.
      * rewrite Hm1. cbn [fst load_calls].
        rewrite (allowed_load_calls df t1 Hall1). reflexivity.
      * unfold main, load. rewrite argc_ge_2.
        cbn [argv_at argv nth_error args argv0 ret bind].
        unfold declared_df, datPath in E1, Hsame. rewrite <- Hsame, E1.
        reflexivity.
    + split.
      * rewrite (main_failed d1 a0 gameDir rest e E1). reflexivity.
      * rewrite (main_failed d1 a0 gameDir rest e E1).
        rewrite (main_failed d2 a0 gameDir rest e); [reflexivity|].
        rewrite <- Hsame. reflexivity.
Qed.

Lemma decoder_is_given_the_path_witness :
  load_calls (fst (main loads_sample sample_cl))
  = ["/g/resources/_common/dat/empires2_x2_p1.dat"]
  /\ main loads_sample sample_cl = main loads_sample_under_g sample_cl.
Proof.
  apply (decoder_is_given_the_path loads_sample loads_sample_under_g sample_cl).
  intros f Hf. injection Hf as <-. reflexivity.
Defined.

(** C2, as the spec words it, fails: two command lines whose data files hold
    the same bytes hand the decoder different inputs, because what it is
    handed is the path. *)
Lemma load_is_not_a_function_of_bytes :
  let cl1 := mk_cl "genie" ["/a"] in
  let cl2 := mk_cl "genie" ["/b"] in
  same_bytes_everywhere (datPath "/a") = same_bytes_everywhere (datPath "/b")
  /\ load_calls (fst (main loads_sample cl1)) = [datPath "/a"]
  /\ load_calls (fst (main loads_sample cl2)) = [datPath "/b"]
  /\ ~ load_is_a_function_of_bytes same_bytes_everywhere.
Proof.
  cbv zeta. split; [reflexivity|]. split; [reflexivity|]. split; [reflexivity|].
  intros H.
  specialize (H loads_sample (mk_cl "genie" ["/a"]) (mk_cl "genie" ["/b"])
                (datPath "/a") (datPath "/b") eq_refl eq_refl eq_refl).
  discriminate H.
Qed.

(** C10, as the code has it. After a successful load the client prints at
    most ten technology rows, one for each named slot among the first ten,
    and then an "... and N more" line exactly when there are more than ten
    slots, with N the number of slots after the tenth; for Gaia it prints a
    row for each of the first ten named units, in order, and then an
    "... and N more" line exactly when fewer rows were printed than there
    are units, with N the number of units without a row. *)
Theorem listings_are_capped_at_ten
        (decoder : Decoder) (cl : CommandLine)
        (gameDir : string) (rest : list string) (df : DatFile.t) :
  args cl = gameDir :: rest ->
  decoder declared_df (datPath gameDir) = Loaded df ->
  let techs := elements (DatFile.Techs df) in
  let ntechs := size (DatFile.Techs df) in
  cout_lines (fst (main decoder cl))
  = ("Loading: " ++ datPath gameDir) :: report_lines df
  /\ tech_listing df
     = ("=== Technologies (" ++ dec ntechs ++ ") ===")
       :: (tech_rows 0 (firstn 10 techs) ++ tech_more df)%list
  /\ (List.length (tech_rows 0 (firstn 10 techs)) <= 10)%nat
  /\ (forall line, In line (tech_rows 0 (firstn 10 techs)) ->
      exists (i : nat) (t : Tech.t),
        (i < 10)%nat /\ nth_error techs i = Some t /\ named_tech t = true
        /\ line = tech_row (Z.of_nat i) t)
  /\ (tech_more df <> [] <-> 10 < ntechs)
  /\ (10 < ntechs -> tech_more df = [more_line (ntechs - 10)])
  /\ (forall gaia others, DatFile.Civs df = gaia :: others ->
      let units := elements (Civ.Units gaia) in
      let nunits := size (Civ.Units gaia) in
      let printed := Z.of_nat (List.length (printed_units gaia)) in
      unit_listing df
      = ("=== Units in " ++ Civ.Name gaia ++ " (" ++ dec nunits ++ ") ===")
        :: (map unit_row (printed_units gaia) ++ unit_more gaia)%list
      /\ printed_units gaia = firstn 10 (filter named_unit units)
      /\ printed <= 10
      /\ (unit_more gaia <> [] <-> printed < nunits)
      /\ (printed < nunits -> unit_more gaia = [more_line (nunits - printed)])).
Proof.
  intros Hargs Hload techs ntechs. subst techs ntechs. destruct cl as [a0 l].
  cbn [args] in Hargs. subst l.
  destruct (main_loaded decoder a0 gameDir rest df Hload) as (t & Hm & Hout & _).
  split; [rewrite Hm; cbn [fst cout_lines]; rewrite Hout; reflexivity|].
  split; [reflexivity|].
  split.
  { rewrite length_tech_rows.
    etransitivity; [apply filter_length_le | apply firstn_le_length]. }
  split.
  { intros line Hin.
    destruct (tech_rows_from _ _ _ Hin) as (i & tch & Hnth & Hnamed & ->).
    exists i, tch. rewrite Z.add_0_l.
    assert (Hi : (i < List.length (firstn 10 (elements (DatFile.Techs df))))%nat)
      by (apply nth_error_Some; congruence).
    pose proof (firstn_le_length 10 (elements (DatFile.Techs df))) as Hten.
    repeat split; try assumption; [lia|].
    rewrite nth_error_firstn in Hnth.
    destruct (Nat.ltb_spec i 10); [exact Hnth | discriminate Hnth]. }
  split.
  { unfold tech_more.
    destruct (Z.ltb_spec 10 (size (DatFile.Techs df))); split;
      try discriminate; try lia; congruence. }
  split.
  { intros H. unfold tech_more.
    replace (10 <? size (DatFile.Techs df)) with true
      by (symmetry; apply Z.ltb_lt; exact H).
    reflexivity. }
  intros gaia others Hcivs units nunits printed. subst units nunits printed.
  split; [unfold unit_listing; rewrite Hcivs; reflexivity|].
  split; [reflexivity|].
  split.
  { unfold printed_units.
    pose proof (firstn_le_length 10 (filter named_unit (elements (Civ.Units gaia)))).
    lia. }
  split.
  { unfold unit_more.
    destruct (Z.ltb_spec (Z.of_nat (List.length (printed_units gaia)))
                         (size (Civ.Units gaia))); split;
      try discriminate; try lia; congruence. }
  intros H. unfold unit_more.
  replace (Z.of_nat (List.length (printed_units gaia)) <? size (Civ.Units gaia))
    with true by (symmetry; apply Z.ltb_lt; exact H).
  reflexivity.
Qed.

Lemma listings_are_capped_at_ten_witness :
  cout_lines (fst (main loads_sample sample_cl))
  = [ "Loading: /g/resources/_common/dat/empires2_x2_p1.dat";
      "File version: VER 7.8"; "";
      "=== Civilizations (2) ==="; "  [0] Gaia"; "  [1] Britons"; "";
      "=== Technologies (3) ==="; "  [0] Loom"; "  [2] Wheel"; "";
      "=== Units in Gaia (2) ==="; "  [4] Scout (HP: 30)"; "  ... and 1 more"; "";
      "=== Summary ==="; "  Graphics: 1"; "  Sounds:   0"; "  Effects:  2" ].
Proof.
  exact (proj1 (listings_are_capped_at_ten loads_sample sample_cl "/g" []
                  sample_df eq_refl eq_refl)).
Defined.

(** C10, as it is worded, fails for the technologies: with a single unused
    slot no row is printed and one entry remains beyond those printed, yet
    no "... and N more" line follows. *)
Lemma unused_slot_is_not_counted_as_remaining :
  let out := cout_lines (fst (main loads_unused_slot sample_cl)) in
  let rows := block "=== Technologies (" out in
  out = [ "Loading: /g/resources/_common/dat/empires2_x2_p1.dat";
          "File version: VER 7.8"; "";
          "=== Civilizations (0) ==="; "";
          "=== Technologies (1) ==="; "";
          "";
          "=== Summary ==="; "  Graphics: 0"; "  Sounds:   0"; "  Effects:  0" ]
  /\ rows = []
  /\ size (DatFile.Techs unused_slot_df) = 1
  /\ ~ more_line_iff_entries_remain rows (size (DatFile.Techs unused_slot_df)).
Proof.
  cbv zeta. split; [reflexivity|]. split; [reflexivity|]. split; [reflexivity|].
  intros [_ H].
  assert (F : existsb is_more_line
                (block "=== Technologies ("
                   (cout_lines (fst (main loads_unused_slot sample_cl)))) = true)
    by (apply H; reflexivity).
  discriminate F.
Qed.

Lemma le_value_bound (bytes : list Byte.byte) :
  0 <= Cursor.le_value bytes < 256 ^ Z.of_nat (List.length bytes).
Proof.
  induction bytes as [|b bytes IH]; [cbn; lia|].
  cbn [Cursor.le_value List.length]. rewrite Nat2Z.inj_succ, Z.pow_succ_r by lia.
  pose proof (Byte.to_N_bounded b) as Hb.
  assert (0 <= Z.of_N (Byte.to_N b) <= 255) by lia. lia.
Qed.

Lemma declared_count_fits (width : nat) (c : Cursor.t) :
  (width <= 8)%nat -> 0 <= Cursor.declared_count width c < SizeT.modulus.
Proof.
  intros Hw. unfold Cursor.declared_count.
  pose proof (le_value_bound
                (firstn width (skipn (Cursor.offset c) (Cursor.buffer c)))) as H.
  pose proof (firstn_le_length width
                (skipn (Cursor.offset c) (Cursor.buffer c))) as Hlen.
  split; [lia|]. eapply Z.lt_le_trans; [apply H|].
  change SizeT.modulus with (256 ^ 8). apply Z.pow_le_mono_r; lia.
Qed.

Lemma read_records_length {A : Type} (read_record : Cursor.t -> LoadError + (A * Cursor.t)) :
  forall (n : nat) (c c' : Cursor.t) (l : list A),
    Cursor.read_records A read_record n c = inr (l, c') -> List.length l = n.
Proof.
  induction n as [|n IH]; intros c c' l H; cbn [Cursor.read_records] in H.
  - injection H as <- _. reflexivity.
  - destruct (read_record c) as [e|[a c1]]; [discriminate H|].
    destruct (Cursor.read_records A read_record n c1) as [e|[l1 c2]] eqn:E;
      [discriminate H|].
    injection H as <- _. cbn [List.length]. rewrite (IH _ _ _ E). reflexivity.
Qed.

(** A count-prefixed array that is read whole has as many records as its
    count declares. *)
Lemma read_array_length {A : Type} (read_record : Cursor.t -> LoadError + (A * Cursor.t))
      (width : nat) (c c' : Cursor.t) (l : list A) :
  Cursor.read_array A read_record width c = inr (l, c') ->
  Z.of_nat (List.length l) = Cursor.declared_count width c.
Proof.
  unfold Cursor.read_array, Cursor.read_count, Cursor.read_fixed,
    Cursor.declared_count.
  destruct (Cursor.offset c + width <=? List.length (Cursor.buffer c))%nat;
    [|discriminate].
  intros H. apply read_records_length in H. rewrite H.
  apply Z2Nat.id. apply le_value_bound.
Qed.

Lemma filter_split_length {A : Type} (f : A -> bool) (l : list A) :
  Z.of_nat (List.length l)
  = Z.of_nat (List.length (filter f l))
    + Z.of_nat (List.length (filter (fun a => negb (f a)) l)).
Proof.
  induction l as [|a l IH]; [reflexivity|].
  cbn [filter List.length]. destruct (f a); cbn [negb List.length]; lia.
Qed.

(** C6. The technology total is the count the array declares, unused slots
    included: when the technology collection of the loaded archive is what
    the count-prefixed reader returned, [TechnologyCount()] is the declared
    count, which is the number of named plus the number of unnamed slots;
    the client prints that count as the total, whatever it is, and lists
    rows for the named slots among the first ten only.  With a declared
    count of 10 and three names the total reads 10 and there are three
    rows. *)
Theorem technology_total_is_the_declared_count
        (decoder : Decoder) (cl : CommandLine)
        (gameDir : string) (rest : list string) (df : DatFile.t)
        (read_tech : Cursor.t -> LoadError + (Tech.t * Cursor.t))
        (width : nat) (c c' : Cursor.t) :
  args cl = gameDir :: rest ->
  decoder declared_df (datPath gameDir) = Loaded df ->
  (width <= 8)%nat ->
  Cursor.read_array Tech.t read_tech width c = inr (DatFile.Techs df, c') ->
  let declared := Cursor.declared_count width c in
  let techs := DatFile.Techs df in
  Archive.TechnologyCount df = declared
  /\ declared
     = Z.of_nat (List.length (filter named_tech techs))
       + Z.of_nat (List.length (filter (fun t => negb (named_tech t)) techs))
  /\ cout_lines (fst (main decoder cl))
     = ("Loading: " ++ datPath gameDir) :: report_lines df
  /\ tech_listing df
     = ("=== Technologies (" ++ dec declared ++ ") ===")
       :: (tech_rows 0 (firstn 10 techs) ++ tech_more df)%list
  /\ List.length (tech_rows 0 (firstn 10 techs))
     = List.length (filter named_tech (firstn 10 techs))
  /\ (declared = 10 ->
      List.length (filter named_tech techs) = 3%nat ->
      tech_listing df = "=== Technologies (10) ===" :: tech_rows 0 techs
      /\ List.length (tech_rows 0 techs) = 3%nat).
Proof.
  intros Hargs Hload Hwidth Hread declared techs. subst declared techs.
  destruct cl as [a0 l]. cbn [args] in Hargs. subst l.
  destruct (main_loaded decoder a0 gameDir rest df Hload) as (t & Hm & Hout & _).
  pose proof (read_array_length read_tech width c c' _ Hread) as Hcount.
  pose proof (declared_count_fits width c Hwidth) as Hfits.
  assert (Hsmall : Z.of_nat (List.length (DatFile.Techs df)) < SizeT.modulus)
    by lia.
  assert (Hlisting :
            tech_listing df
            = ("=== Technologies (" ++ dec (Cursor.declared_count width c)
               ++ ") ===")
              :: (tech_rows 0 (firstn 10 (DatFile.Techs df)) ++ tech_more df)%list).
  { unfold tech_listing.
    rewrite (elements_small _ Hsmall), (size_small _ Hsmall), Hcount.
    reflexivity. }
  split; [exact Hcount|].
  split; [rewrite <- Hcount; apply filter_split_length|].
  split; [rewrite Hm; cbn [fst cout_lines]; rewrite Hout; reflexivity|].
  split; [exact Hlisting|].
  split; [apply length_tech_rows|].
  intros Hten Hthree. split.
  - rewrite Hlisting, Hten. unfold tech_more.
    rewrite (size_small _ Hsmall), Hcount, Hten.
    change (10 <? 10) with false. rewrite app_nil_r.
    rewrite firstn_all2 by lia. reflexivity.
  - rewrite length_tech_rows. exact Hthree.
Qed.

Lemma technology_total_is_the_declared_count_witness :
  Cursor.declared_count 2 (Cursor.mk ten_slots_bytes 0) = 10
  /\ Archive.TechnologyCount ten_slots_df = 10
  /\ tech_listing ten_slots_df
     = [ "=== Technologies (10) ==="; "  [1] Loom"; "  [4] Wheel"; "  [8] Masonry" ].
Proof.
  destruct (technology_total_is_the_declared_count loads_ten_slots sample_cl
              "/g" [] ten_slots_df sample_read_tech 2
              (Cursor.mk ten_slots_bytes 0) (Cursor.mk ten_slots_bytes 28)
              eq_refl eq_refl ltac:(repeat constructor) eq_refl)
    as (H1 & _ & _ & _ & _ & H6).
  split; [reflexivity|]. split; [exact H1|].
  exact (proj1 (H6 eq_refl eq_refl)).
Defined.







(** * Further properties of [main] *)

Lemma in_bind {A B : Type} (m : M A) (k : A -> M B) (e : event) :
  In e (fst (bind m k)) ->
  In e (fst m) \/ exists a, snd m = Value a /\ In e (fst (k a)).
Proof.
  destruct m as [t [a| c | x | | ]]; cbn [bind fst snd]; intros H;
    try (left; exact H).
  destruct (k a) as [t' r] eqn:E. cbn [fst] in H.
  apply in_app_or in H. destruct H as [H|H]; [left; exact H|].
  right. exists a. rewrite E. split; [reflexivity | exact H].
Qed.

Lemma civ_rows_names (l1 : list Civ.t) :
  forall (l2 : list Civ.t) (i : Z),
    map Civ.Name l1 = map Civ.Name l2 -> civ_rows i l1 = civ_rows i l2.
Proof.
  induction l1 as [|c1 l1 IH]; intros [|c2 l2] i H; try discriminate H.
  - reflexivity.
  - cbn [map] in H. injection H as Hn Hl. cbn [civ_rows]. unfold civ_row.
    rewrite Hn, (IH l2 (i + 1) Hl). reflexivity.
Qed.

Lemma length_civ_rows (l : list Civ.t) :
  forall i, List.length (civ_rows i l) = List.length l.
Proof.
  induction l as [|c l IH]; intros i; [reflexivity|].
  cbn [civ_rows List.length]. rewrite IH. reflexivity.
Qed.

Lemma nth_civ_rows (l : list Civ.t) :
  forall (start : Z) (k : nat) (c : Civ.t),
    nth_error l k = Some c ->
    nth_error (civ_rows start l) k = Some (civ_row (start + Z.of_nat k) c).
Proof.
  induction l as [|c0 l IH]; intros start [|k] c H; try discriminate H.
  - cbn [nth_error] in H. injection H as ->. cbn [civ_rows nth_error].
    rewrite Z.add_0_r. reflexivity.
  - cbn [nth_error] in H. cbn [civ_rows nth_error].
    rewrite (IH (start + 1) k c H). do 2 f_equal. lia.
Qed.

Lemma tech_rows_complete (l : list Tech.t) :
  forall (start : Z) (i : nat) (t : Tech.t),
    nth_error l i = Some t -> named_tech t = true ->
    In (tech_row (start + Z.of_nat i) t) (tech_rows start l).
Proof.
  induction l as [|t0 l IH]; intros start [|i] t H Hn; try discriminate H.
  - cbn [nth_error] in H. injection H as ->. cbn [tech_rows]. rewrite Hn.
    left. rewrite Z.add_0_r. reflexivity.
  - cbn [nth_error] in H. cbn [tech_rows].
    replace (start + Z.of_nat (S i)) with (start + 1 + Z.of_nat i) by lia.
    destruct (named_tech t0); [right|]; apply IH; assumption.
Qed.

Lemma firstn_succ_nth {A : Type} (l : list A) :
  forall (n : nat) (a : A),
    nth_error l n = Some a -> firstn (S n) l = (firstn n l ++ [a])%list.
Proof.
  induction l as [|x l IH]; intros [|n] a H; try discriminate H.
  - cbn [nth_error] in H. injection H as ->. reflexivity.
  - cbn [nth_error] in H. rewrite !firstn_cons, (IH n a H). reflexivity.
Qed.

(** The units loop looks at position [j] only while fewer than ten named
    units lie before it. *)
Lemma unit_loop_scans (gaia : Civ.t) :
  forall (fuel : nat) (i printed j : Z),
    0 <= i ->
    printed
    = Z.of_nat (List.length (filter named_unit
                               (firstn (Z.to_nat i) (Civ.Units gaia)))) ->
    In (EvIndex vUnits j) (fst (unit_loop gaia fuel i printed)) ->
    i <= j < size (Civ.Units gaia)
    /\ (List.length (filter named_unit (firstn (Z.to_nat j) (Civ.Units gaia)))
        < 10)%nat.
Proof.
  destruct (size_range (Civ.Units gaia)) as [[Hs0 Hsm] Hsl].
  induction fuel as [|fuel IH]; intros i printed j Hi Hinv Hin.
  - cbn [unit_loop] in Hin.
    destruct ((i <? size (Civ.Units gaia)) && (printed <? 10)); destruct Hin.
  - cbn [unit_loop] in Hin.
    destruct (Z.ltb_spec i (size (Civ.Units gaia))) as [Hlt|Hge];
      [|destruct Hin].
    destruct (Z.ltb_spec printed 10) as [Hp|Hp]; [|destruct Hin].
    cbn [andb] in Hin.
    assert (Hrange : 0 <= i < Z.of_nat (List.length (Civ.Units gaia))) by lia.
    destruct (vec_at_nth _ _ Hrange) as (u & Hat & Hnth).
    unfold index in Hin. rewrite Hat in Hin.
    apply in_bind in Hin. cbn [fst snd In] in Hin.
    destruct Hin as [[Hhere|[]] | (u' & Hu' & Hin)].
    + injection Hhere as <-. split; [lia|]. lia.
    + injection Hu' as <-.
      assert (Hnext : firstn (Z.to_nat (SizeT.incr i)) (Civ.Units gaia)
                      = (firstn (Z.to_nat i) (Civ.Units gaia) ++ [u])%list).
      { rewrite (incr_below i (size (Civ.Units gaia))) by lia.
        replace (Z.to_nat (i + 1)) with (S (Z.to_nat i)) by lia.
        apply firstn_succ_nth. exact Hnth. }
      assert (Hstep : SizeT.incr i = i + 1)
        by (apply (incr_below i (size (Civ.Units gaia))); lia).
      apply in_bind in Hin. destruct Hin as [Hin | (p' & Hp' & Hin)].
      * exfalso. destruct (negb (str_empty (Unit.Name u))); cbn in Hin;
          [destruct Hin as [Hin|[]]; discriminate Hin | destruct Hin].
      * change (negb (str_empty (Unit.Name u))) with (named_unit u) in Hp'.
        assert (Hp'' : p' = Z.of_nat
                         (List.length
                            (filter named_unit
                               (firstn (Z.to_nat (SizeT.incr i))
                                  (Civ.Units gaia))))).
        { rewrite Hnext, filter_app, length_app. cbn [filter].
          destruct (named_unit u); cbn [bind print emit ret snd] in Hp';
            injection Hp' as <-; cbn [List.length].
          - rewrite (incr_below printed 10) by (lia || reflexivity). lia.
          - lia. }
        destruct (IH (SizeT.incr i) p' j ltac:(lia) Hp'' Hin) as [Hj Hcount].
        split; [lia | exact Hcount].
Qed.

Lemma civ_loop_leaves_units (df : DatFile.t) :
  forall (fuel : nat) (i j : Z),
    ~ In (EvIndex vUnits j) (fst (civ_loop df fuel i)).
Proof.
  induction fuel as [|fuel IH]; intros i j Hin; cbn [civ_loop] in Hin;
    apply in_bind in Hin; destruct Hin as [Hin | (n & _ & Hin)];
    try (destruct Hin as [Hin|[]]; discriminate Hin);
    destruct (i <? n); try (destruct Hin; fail).
  apply in_bind in Hin. destruct Hin as [Hin | (civs & _ & Hin)];
    [destruct Hin as [Hin|[]]; discriminate Hin|].
  apply in_bind in Hin. destruct Hin as [Hin | (c & _ & Hin)].
  - unfold index in Hin. destruct (vec_at civs i);
      destruct Hin as [Hin|[]]; discriminate Hin.
  - apply in_bind in Hin. destruct Hin as [Hin | (x & _ & Hin)];
      [destruct Hin as [Hin|[]]; discriminate Hin|].
    exact (IH _ _ Hin).
Qed.

Lemma tech_loop_leaves_units (df : DatFile.t) (techLimit : Z) :
  forall (fuel : nat) (i j : Z),
    ~ In (EvIndex vUnits j) (fst (tech_loop df techLimit fuel i)).
Proof.
  induction fuel as [|fuel IH]; intros i j Hin; cbn [tech_loop] in Hin;
    destruct (i <? techLimit); try (destruct Hin; fail).
  apply in_bind in Hin. destruct Hin as [Hin | (techs & _ & Hin)];
    [destruct Hin as [Hin|[]]; discriminate Hin|].
  apply in_bind in Hin. destruct Hin as [Hin | (t & _ & Hin)].
  - unfold index in Hin. destruct (vec_at techs i);
      destruct Hin as [Hin|[]]; discriminate Hin.
  - apply in_bind in Hin. destruct Hin as [Hin | (x & _ & Hin)].
    + destruct (negb (str_empty (Tech.Name t))); [|destruct Hin].
      apply in_bind in Hin. destruct Hin as [Hin | (techs' & _ & Hin)];
        [destruct Hin as [Hin|[]]; discriminate Hin|].
      apply in_bind in Hin. destruct Hin as [Hin | (t' & _ & Hin)].
      * unfold index in Hin. destruct (vec_at techs' i);
          destruct Hin as [Hin|[]]; discriminate Hin.
      * destruct Hin as [Hin|[]]; discriminate Hin.
    + exact (IH _ _ Hin).
Qed.

(** In the report only the units section indexes Gaia's units. *)
Lemma report_units_index (df : DatFile.t) (j : Z) :
  In (EvIndex vUnits j) (fst (report df)) ->
  In (EvIndex vUnits j) (fst (units_section df)).
Proof.
  intros Hin. unfold report in Hin.
  repeat (apply in_bind in Hin;
          destruct Hin as [Hin | (? & _ & Hin)];
          [ first [ destruct Hin as [Hin|[]]; discriminate Hin
                  | exfalso; exact (civ_loop_leaves_units _ _ _ _ Hin)
                  | exfalso; exact (tech_loop_leaves_units _ _ _ _ _ Hin)
                  | exact Hin
                  | exfalso;
                    match type of Hin with
                    | In _ (fst (if ?c then _ else _)) => destruct c
                    end;
                    [ apply in_bind in Hin;
                      destruct Hin as [Hin | (? & _ & Hin)];
                      destruct Hin as [Hin|[]]; discriminate Hin
                    | destruct Hin ] ]
          | ]).
  destruct Hin as [Hin|[]]; discriminate Hin.
Qed.

Lemma main_loaded_trace (decoder : Decoder) (a0 gameDir : string)
      (rest : list string) (df : DatFile.t) :
  decoder declared_df (datPath gameDir) = Loaded df ->
  fst (main decoder (mk_cl a0 (gameDir :: rest)))
  = (EvOut cout ("Loading: " ++ datPath gameDir)
     :: EvNew
     :: EvSetGameVersion GV_LatestDE2
     :: EvLoad (Some GV_LatestDE2) (datPath gameDir)
     :: fst (report df)).
Proof.
  intros H. destruct (report_prints df) as (t & Hrep & _).
  unfold main. rewrite argc_ge_2.
  unfold load. unfold declared_df, datPath in H.
  cbn [argv_at argv nth_error args argv0 ret bind].
  rewrite H. cbn [try_catch print emit bind app]. rewrite Hrep.
  cbn [bind return_ app fst]. rewrite app_nil_r. reflexivity.
Qed.

(** X1. The exit code tells whether an archive was loaded: [main] returns 0
    exactly when a game directory was given and the load succeeded, and 1
    exactly when none was given or the load threw. *)
Theorem exit_code_tells_whether_loaded (decoder : Decoder) (cl : CommandLine) :
  (snd (main decoder cl) = Return 0
   <-> exists gameDir rest df,
         args cl = gameDir :: rest
         /\ decoder declared_df (datPath gameDir) = Loaded df)
  /\ (snd (main decoder cl) = Return 1
      <-> args cl = []
          \/ exists gameDir rest e,
               args cl = gameDir :: rest
               /\ decoder declared_df (datPath gameDir) = Threw e).
Proof.
  destruct cl as [a0 [|gameDir rest]]; cbn [args].
  - rewrite main_usage. cbn [snd]. split; split.
    + discriminate.
    + intros (g & r & df & H & _). discriminate H.
    + intros _. left. reflexivity.
    + reflexivity.
  - destruct (decoder declared_df (datPath gameDir)) as [df|e] eqn:E.
    + destruct (main_loaded decoder a0 gameDir rest df E) as (t & -> & _).
      cbn [snd]. split; split.
      * intros _. exists gameDir, rest, df. split; [reflexivity | exact E].
      * reflexivity.
      * discriminate.
      * intros [H | (g & r & e & H & H')]; [discriminate H|].
        injection H as <- <-. congruence.
    + rewrite (main_failed decoder a0 gameDir rest e E). cbn [snd].
      split; split.
      * discriminate.
      * intros (g & r & df & H & H'). injection H as <- <-. congruence.
      * intros _. right. exists gameDir, rest, e.
        split; [reflexivity | exact E].
      * reflexivity.
Qed.

(** X2. A run writes to [std::cerr] exactly when it returns 1, and then one
    line; a run that returns 0 leaves [std::cerr] untouched; and nothing is
    written to [std::cout] exactly when no game directory was given. *)
Theorem cerr_has_one_line_iff_exit_1 (decoder : Decoder) (cl : CommandLine) :
  (snd (main decoder cl) = Return 0 /\ cerr_lines (fst (main decoder cl)) = []
   \/ snd (main decoder cl) = Return 1
      /\ exists line, cerr_lines (fst (main decoder cl)) = [line])
  /\ (cout_lines (fst (main decoder cl)) = [] <-> args cl = []).
Proof.
  destruct cl as [a0 [|gameDir rest]]; cbn [args].
  - rewrite main_usage. cbn [fst snd cerr_lines cout_lines]. split.
    + right. split; [reflexivity|]. eexists. reflexivity.
    + split; reflexivity.
  - destruct (decoder declared_df (datPath gameDir)) as [df|e] eqn:E.
    + destruct (main_loaded decoder a0 gameDir rest df E) as (t & -> & _ & Hall).
      cbn [fst snd cerr_lines cout_lines].
      rewrite (allowed_cerr_lines df t Hall). split.
      * left. split; reflexivity.
      * split; discriminate.
    + rewrite (main_failed decoder a0 gameDir rest e E).
      cbn [fst snd cerr_lines cout_lines]. split.
      * right. split; [reflexivity|]. eexists. reflexivity.
      * split; discriminate.
Qed.

(** X3. Of the command line only [argv[1]] is used once it is there: the
    program's own name and any further argument do not change the run. *)
Theorem only_the_game_directory_matters
        (decoder : Decoder) (a0 a0' gameDir : string) (rest rest' : list string) :
  main decoder (mk_cl a0 (gameDir :: rest))
  = main decoder (mk_cl a0' (gameDir :: rest')).
Proof.
  unfold main. rewrite !argc_ge_2. reflexivity.
Qed.

(** X4. The civilization listing is not capped and skips nothing: after a
    successful load it has one row per civilization, unnamed ones included,
    and row [k] carries the index [k] and the name of [Civs[k]]. *)
Theorem every_civilization_is_listed
        (decoder : Decoder) (cl : CommandLine)
        (gameDir : string) (rest : list string) (df : DatFile.t) :
  args cl = gameDir :: rest ->
  decoder declared_df (datPath gameDir) = Loaded df ->
  let civs := elements (DatFile.Civs df) in
  cout_lines (fst (main decoder cl))
  = (["Loading: " ++ datPath gameDir;
      "File version: " ++ DatFile.FileVersion df;
      "";
      "=== Civilizations (" ++ dec (size (DatFile.Civs df)) ++ ") ==="]%string
     ++ civ_rows 0 civs
     ++ "" :: tech_listing df
     ++ "" :: unit_listing df
     ++ "" :: summary df)%list
  /\ Z.of_nat (List.length (civ_rows 0 civs)) = size (DatFile.Civs df)
  /\ (forall (k : nat) (c : Civ.t),
         nth_error civs k = Some c ->
         nth_error (civ_rows 0 civs) k
         = Some ("  [" ++ dec (Z.of_nat k) ++ "] " ++ Civ.Name c)).
Proof.
  intros Hargs Hload civs. subst civs. destruct cl as [a0 l].
  cbn [args] in Hargs. subst l.
  destruct (main_loaded decoder a0 gameDir rest df Hload) as (t & Hm & Hout & _).
  split; [rewrite Hm; cbn [fst cout_lines]; rewrite Hout; reflexivity|].
  split.
  - rewrite length_civ_rows. apply length_elements.
  - intros k c H. rewrite (nth_civ_rows _ 0 k c H). reflexivity.
Qed.

Lemma every_civilization_is_listed_witness :
  nth_error (civ_rows 0 (elements (DatFile.Civs sample_df))) 1
  = Some "  [1] Britons".
Proof.
  destruct (every_civilization_is_listed loads_sample sample_cl "/g" []
              sample_df eq_refl eq_refl) as (_ & _ & H).
  exact (H 1%nat (Civ.mk "Britons" []) eq_refl).
Defined.

(** X5. What a successful run prints depends on the archive only through
    its file version, the names of its civilizations, the first ten named
    units of Gaia and the number of Gaia's units, the first ten technology
    slots and the number of slots, and the numbers of graphics, sounds and
    effects: two archives that agree on these give the same output. *)
Theorem output_depends_on_what_is_shown
        (d1 d2 : Decoder) (cl : CommandLine)
        (gameDir : string) (rest : list string) (df1 df2 : DatFile.t) :
  args cl = gameDir :: rest ->
  d1 declared_df (datPath gameDir) = Loaded df1 ->
  d2 declared_df (datPath gameDir) = Loaded df2 ->
  DatFile.FileVersion df1 = DatFile.FileVersion df2 ->
  map Civ.Name (DatFile.Civs df1) = map Civ.Name (DatFile.Civs df2) ->
  size (gaia_units df1) = size (gaia_units df2) ->
  firstn 10 (filter named_unit (elements (gaia_units df1)))
  = firstn 10 (filter named_unit (elements (gaia_units df2))) ->
  size (DatFile.Techs df1) = size (DatFile.Techs df2) ->
  firstn 10 (elements (DatFile.Techs df1))
  = firstn 10 (elements (DatFile.Techs df2)) ->
  size (DatFile.Graphics df1) = size (DatFile.Graphics df2) ->
  size (DatFile.Sounds df1) = size (DatFile.Sounds df2) ->
  size (DatFile.Effects df1) = size (DatFile.Effects df2) ->
  cout_lines (fst (main d1 cl)) = cout_lines (fst (main d2 cl)).
Proof.
  intros Hargs H1 H2 Hfv Hnames Hnu Hu Hnt Ht Hg Hs He.
  destruct cl as [a0 l]. cbn [args] in Hargs. subst l.
  destruct (main_loaded d1 a0 gameDir rest df1 H1) as (t1 & -> & Ho1 & _).
  destruct (main_loaded d2 a0 gameDir rest df2 H2) as (t2 & -> & Ho2 & _).
  cbn [fst cout_lines]. rewrite Ho1, Ho2. f_equal.
  assert (Hlen : List.length (DatFile.Civs df1) = List.length (DatFile.Civs df2)).
  { rewrite <- (length_map Civ.Name (DatFile.Civs df1)), Hnames.
    apply length_map. }
  assert (Hnc : size (DatFile.Civs df1) = size (DatFile.Civs df2))
    by (unfold size; rewrite Hlen; reflexivity).
  assert (Hciv : civ_listing df1 = civ_listing df2).
  { unfold civ_listing, elements. rewrite Hnc. f_equal.
    apply civ_rows_names. rewrite <- !firstn_map, Hnames. reflexivity. }
  assert (Htech : tech_listing df1 = tech_listing df2).
  { unfold tech_listing, tech_more. rewrite Hnt, Ht. reflexivity. }
  assert (Hunit : unit_listing df1 = unit_listing df2).
  { unfold unit_listing, unit_more, printed_units. unfold gaia_units in Hnu, Hu.
    destruct (DatFile.Civs df1) as [|g1 o1];
      destruct (DatFile.Civs df2) as [|g2 o2]; try discriminate Hnames.
    - reflexivity.
    - cbn [map] in Hnames. injection Hnames as Hn _.
      rewrite Hn, Hnu, Hu. reflexivity. }
  unfold report_lines, summary.
  rewrite Hfv, Hciv, Htech, Hunit, Hg, Hs, He. reflexivity.
Qed.

Lemma output_depends_on_what_is_shown_witness :
  cout_lines (fst (main loads_sample sample_cl))
  = cout_lines (fst (main loads_sample_variant sample_cl)).
Proof.
  apply (output_depends_on_what_is_shown loads_sample loads_sample_variant
           sample_cl "/g" [] sample_df sample_variant_df); reflexivity.
Defined.

(** X6. No named technology among the first ten slots is left out: after a
    successful load the output holds the row of slot [i], with the index
    [i], whenever [i < 10] and [Techs[i]] has a name. *)
Theorem named_technology_gets_its_row
        (decoder : Decoder) (cl : CommandLine)
        (gameDir : string) (rest : list string) (df : DatFile.t)
        (i : nat) (t : Tech.t) :
  args cl = gameDir :: rest ->
  decoder declared_df (datPath gameDir) = Loaded df ->
  (i < 10)%nat ->
  nth_error (elements (DatFile.Techs df)) i = Some t ->
  str_empty (Tech.Name t) = false ->
  In ("  [" ++ dec (Z.of_nat i) ++ "] " ++ Tech.Name t)
     (cout_lines (fst (main decoder cl))).
Proof.
  intros Hargs Hload Hi Hnth Hname. destruct cl as [a0 l].
  cbn [args] in Hargs. subst l.
  destruct (main_loaded decoder a0 gameDir rest df Hload) as (t' & -> & Hout & _).
  cbn [fst cout_lines]. rewrite Hout. right.
  unfold report_lines. apply in_or_app. right.
  apply in_or_app. right. apply in_or_app. right.
  apply in_or_app. left. unfold tech_listing. right.
  apply in_or_app. left.
  change ("  [" ++ dec (Z.of_nat i) ++ "] " ++ Tech.Name t)
    with (tech_row (Z.of_nat i) t).
  replace (Z.of_nat i) with (0 + Z.of_nat i) by lia.
  apply tech_rows_complete.
  - rewrite nth_error_firstn.
    destruct (Nat.ltb_spec i 10); [exact Hnth | lia].
  - unfold named_tech. rewrite Hname. reflexivity.
Qed.

Lemma named_technology_gets_its_row_witness :
  In "  [2] Wheel" (cout_lines (fst (main loads_sample sample_cl))).
Proof.
  apply (named_technology_gets_its_row loads_sample sample_cl "/g" []
           sample_df 2%nat (Tech.mk "Wheel")); try reflexivity.
  repeat constructor.
Defined.

(** X7. The scan of Gaia's units stops with the tenth row: in a run on a
    loaded archive [Units[j]] of Gaia is read only if [j] is below the
    number of units and fewer than ten named units come before it. *)
Theorem units_are_scanned_until_ten_rows
        (decoder : Decoder) (cl : CommandLine)
        (gameDir : string) (rest : list string) (df : DatFile.t)
        (gaia : Civ.t) (others : list Civ.t) (j : Z) :
  args cl = gameDir :: rest ->
  decoder declared_df (datPath gameDir) = Loaded df ->
  DatFile.Civs df = gaia :: others ->
  In (EvIndex vUnits j) (fst (main decoder cl)) ->
  0 <= j < size (Civ.Units gaia)
  /\ (List.length (filter named_unit (firstn (Z.to_nat j) (Civ.Units gaia)))
      < 10)%nat.
Proof.
  intros Hargs Hload Hcivs Hin. destruct cl as [a0 l].
  cbn [args] in Hargs. subst l.
  rewrite (main_loaded_trace decoder a0 gameDir rest df Hload) in Hin.
  cbn [In] in Hin.
  repeat (destruct Hin as [Hin|Hin]; [discriminate Hin|]).
  apply report_units_index in Hin. unfold units_section in Hin.
  rewrite Hcivs in Hin.
  apply in_bind in Hin. destruct Hin as [Hin | (civs & Hv & Hin)];
    [destruct Hin as [Hin|[]]; discriminate Hin|].
  cbn [read snd] in Hv. injection Hv as <-. cbn [empty negb] in Hin.
  apply in_bind in Hin. destruct Hin as [Hin | (civs0 & Hv & Hin)];
    [destruct Hin as [Hin|[]]; discriminate Hin|].
  cbn [read snd] in Hv. injection Hv as <-.
  assert (Hat : vec_at (gaia :: others) 0 = Some gaia).
  { unfold vec_at. cbn [List.length].
    replace ((0 <=? 0) && (0 <? Z.of_nat (S (List.length others)))) with true
      by (symmetry; apply andb_true_iff; split;
          [apply Z.leb_le | apply Z.ltb_lt]; lia).
    reflexivity. }
  apply in_bind in Hin. unfold index in Hin. rewrite Hat in Hin.
  destruct Hin as [Hin | (g & Hv & Hin)];
    [destruct Hin as [Hin|[]]; discriminate Hin|].
  cbn [snd] in Hv. injection Hv as <-.
  apply in_bind in Hin. destruct Hin as [Hin | (x & _ & Hin)];
    [destruct Hin as [Hin|[]]; discriminate Hin|].
  apply in_bind in Hin. destruct Hin as [Hin | (printed & _ & Hin)].
  - destruct (unit_loop_scans gaia _ 0 0 j ltac:(lia) eq_refl Hin) as [Hj Hc].
    split; [lia | exact Hc].
  - exfalso. destruct (printed <? size (Civ.Units gaia));
      [destruct Hin as [Hin|[]]; discriminate Hin | destruct Hin].
Qed.

Lemma units_are_scanned_until_ten_rows_witness :
  0 <= 1 < size (Civ.Units (Civ.mk "Gaia" [Unit.mk 4 "Scout" 30; Unit.mk 5 "" 0])).
Proof.
  apply (units_are_scanned_until_ten_rows loads_sample sample_cl "/g" []
           sample_df (Civ.mk "Gaia" [Unit.mk 4 "Scout" 30; Unit.mk 5 "" 0])
           [Civ.mk "Britons" []] 1 eq_refl eq_refl eq_refl).
  cbv. tauto.
Defined.

(** X8. Before a load the client does three things and no other: it
    announces on [std::cout] the very file it is about to load, constructs
    the object and declares the version. *)
Theorem load_is_announced_first
        (decoder : Decoder) (cl : CommandLine)
        (pre post : trace) (declared : option GameVersion) (fileName : string) :
  fst (main decoder cl) = (pre ++ EvLoad declared fileName :: post)%list ->
  pre = [EvOut cout ("Loading: " ++ fileName); EvNew;
         EvSetGameVersion GV_LatestDE2].
Proof.
  intros H. destruct cl as [a0 [|gameDir rest]].
  - rewrite main_usage in H. cbn [fst] in H.
    destruct pre as [|e1 [|e2 pre]]; discriminate H.
  - destruct (decoder declared_df (datPath gameDir)) as [df|e] eqn:E.
    + destruct (main_loaded decoder a0 gameDir rest df E) as (t & Hm & _ & Hall).
      rewrite Hm in H. cbn [fst] in H.
      destruct pre as [|e1 [|e2 [|e3 [|e4 pre]]]]; cbn [app] in H;
        try discriminate H.
      * injection H as H1 H2 H3 _ Hf _. subst. reflexivity.
      * injection H as _ _ _ _ Ht. exfalso.
        apply (allowed_no_load df t declared fileName Hall).
        rewrite Ht. apply in_or_app. right. left. reflexivity.
    + rewrite (main_failed decoder a0 gameDir rest e E) in H. cbn [fst] in H.
      destruct pre as [|e1 [|e2 [|e3 [|e4 [|e5 pre]]]]]; cbn [app] in H;
        try discriminate H.
      * injection H as H1 H2 H3 _ Hf _. subst. reflexivity.
      * destruct pre; discriminate H.
Qed.

Lemma load_is_announced_first_witness :
  [EvOut cout "Loading: /g/resources/_common/dat/empires2_x2_p1.dat";
   EvNew; EvSetGameVersion GV_LatestDE2]
  = [EvOut cout ("Loading: " ++ "/g/resources/_common/dat/empires2_x2_p1.dat");
     EvNew; EvSetGameVersion GV_LatestDE2].
Proof.
  apply (load_is_announced_first fails_corrupt sample_cl
           [EvOut cout "Loading: /g/resources/_common/dat/empires2_x2_p1.dat";
            EvNew; EvSetGameVersion GV_LatestDE2]
           [EvOut cerr "Failed to load dat file: inflate failed"]
           (Some GV_LatestDE2)
           "/g/resources/_common/dat/empires2_x2_p1.dat").
  reflexivity.
Defined.

Lemma civ_loop_leaves_techs (df : DatFile.t) :
  forall (fuel : nat) (i j : Z),
    ~ In (EvIndex vTechs j) (fst (civ_loop df fuel i)).
Proof.
  induction fuel as [|fuel IH]; intros i j Hin; cbn [civ_loop] in Hin;
    apply in_bind in Hin; destruct Hin as [Hin | (n & _ & Hin)];
    try (destruct Hin as [Hin|[]]; discriminate Hin);
    destruct (i <? n); try (destruct Hin; fail).
  apply in_bind in Hin. destruct Hin as [Hin | (civs & _ & Hin)];
    [destruct Hin as [Hin|[]]; discriminate Hin|].
  apply in_bind in Hin. destruct Hin as [Hin | (c & _ & Hin)].
  - unfold index in Hin. destruct (vec_at civs i);
      destruct Hin as [Hin|[]]; discriminate Hin.
  - apply in_bind in Hin. destruct Hin as [Hin | (x & _ & Hin)];
      [destruct Hin as [Hin|[]]; discriminate Hin|].
    exact (IH _ _ Hin).
Qed.

Lemma unit_loop_leaves_techs (gaia : Civ.t) :
  forall (fuel : nat) (i printed j : Z),
    ~ In (EvIndex vTechs j) (fst (unit_loop gaia fuel i printed)).
Proof.
  induction fuel as [|fuel IH]; intros i printed j Hin; cbn [unit_loop] in Hin;
    destruct ((i <? size (Civ.Units gaia)) && (printed <? 10));
    try (destruct Hin; fail).
  apply in_bind in Hin. destruct Hin as [Hin | (u & _ & Hin)].
  - unfold index in Hin. destruct (vec_at (Civ.Units gaia) i);
      destruct Hin as [Hin|[]]; discriminate Hin.
  - apply in_bind in Hin. destruct Hin as [Hin | (p & _ & Hin)].
    + destruct (negb (str_empty (Unit.Name u))); cbn in Hin;
        [destruct Hin as [Hin|[]]; discriminate Hin | destruct Hin].
    + exact (IH _ _ _ Hin).
Qed.

Lemma units_section_leaves_techs (df : DatFile.t) (j : Z) :
  ~ In (EvIndex vTechs j) (fst (units_section df)).
Proof.
  intros Hin. unfold units_section in Hin.
  apply in_bind in Hin. destruct Hin as [Hin | (civs & _ & Hin)];
    [destruct Hin as [Hin|[]]; discriminate Hin|].
  destruct (negb (empty civs)); [|destruct Hin].
  apply in_bind in Hin. destruct Hin as [Hin | (civs0 & _ & Hin)];
    [destruct Hin as [Hin|[]]; discriminate Hin|].
  apply in_bind in Hin. destruct Hin as [Hin | (gaia & _ & Hin)].
  - unfold index in Hin. destruct (vec_at civs0 0);
      destruct Hin as [Hin|[]]; discriminate Hin.
  - apply in_bind in Hin. destruct Hin as [Hin | (x & _ & Hin)];
      [destruct Hin as [Hin|[]]; discriminate Hin|].
    apply in_bind in Hin. destruct Hin as [Hin | (printed & _ & Hin)].
    + exact (unit_loop_leaves_techs _ _ _ _ _ Hin).
    + destruct (printed <? size (Civ.Units gaia));
        [destruct Hin as [Hin|[]]; discriminate Hin | destruct Hin].
Qed.

(** The technologies loop indexes the slots from [i] up to the limit. *)
Lemma tech_loop_scans (df : DatFile.t) (techLimit : Z) :
  techLimit <= size (DatFile.Techs df) ->
  forall (fuel : nat) (i j : Z),
    0 <= i ->
    In (EvIndex vTechs j) (fst (tech_loop df techLimit fuel i)) ->
    i <= j < techLimit.
Proof.
  intros HL. destruct (size_range (DatFile.Techs df)) as [[Hs0 Hsm] Hsl].
  induction fuel as [|fuel IH]; intros i j Hi Hin; cbn [tech_loop] in Hin;
    destruct (Z.ltb_spec i techLimit) as [Hlt|Hge]; try (destruct Hin; fail).
  apply in_bind in Hin. destruct Hin as [Hin | (techs & _ & Hin)];
    [destruct Hin as [Hin|[]]; discriminate Hin|].
  apply in_bind in Hin. destruct Hin as [Hin | (t & _ & Hin)].
  - unfold index in Hin. destruct (vec_at techs i);
      destruct Hin as [Hin|[]]; injection Hin as <-; lia.
  - apply in_bind in Hin. destruct Hin as [Hin | (x & _ & Hin)].
    + destruct (negb (str_empty (Tech.Name t))); [|destruct Hin].
      apply in_bind in Hin. destruct Hin as [Hin | (techs' & _ & Hin)];
        [destruct Hin as [Hin|[]]; discriminate Hin|].
      apply in_bind in Hin. destruct Hin as [Hin | (t' & _ & Hin)].
      * unfold index in Hin. destruct (vec_at techs' i);
          destruct Hin as [Hin|[]]; injection Hin as <-; lia.
      * destruct Hin as [Hin|[]]; discriminate Hin.
    + rewrite (incr_below i (size (DatFile.Techs df))) in Hin by lia.
      specialize (IH (i + 1) j ltac:(lia) Hin). lia.
Qed.

Lemma report_techs_index (df : DatFile.t) (j : Z) :
  In (EvIndex vTechs j) (fst (report df)) ->
  0 <= j < SizeT.min (size (DatFile.Techs df)) 10.
Proof.
  intros Hin. unfold report in Hin.
  assert (HL : SizeT.min (size (DatFile.Techs df)) 10 <= size (DatFile.Techs df)).
  { unfold SizeT.min. destruct (Z.ltb_spec 10 (size (DatFile.Techs df))); lia. }
  repeat (apply in_bind in Hin;
          destruct Hin as [Hin | (? & Hv & Hin)];
          [ first [ destruct Hin as [Hin|[]]; discriminate Hin
                  | exfalso; exact (civ_loop_leaves_techs _ _ _ _ Hin)
                  | exfalso; exact (units_section_leaves_techs _ _ Hin)
                  | exact (tech_loop_scans df _ HL _ 0 j ltac:(lia) Hin)
                  | exfalso;
                    match type of Hin with
                    | In _ (fst (if ?c then _ else _)) => destruct c
                    end;
                    [ apply in_bind in Hin;
                      destruct Hin as [Hin | (? & _ & Hin)];
                      destruct Hin as [Hin|[]]; discriminate Hin
                    | destruct Hin ] ]
          | first [cbn [read snd] in Hv; injection Hv as <- | clear Hv] ]).
  destruct Hin as [Hin|[]]; discriminate Hin.
Qed.

(** X9. No technology slot after the tenth is ever read: in a run on a
    loaded archive [Techs[j]] is read only for [j] below ten and below the
    number of slots. *)
Theorem technologies_are_read_up_to_the_tenth
        (decoder : Decoder) (cl : CommandLine)
        (gameDir : string) (rest : list string) (df : DatFile.t) (j : Z) :
  args cl = gameDir :: rest ->
  decoder declared_df (datPath gameDir) = Loaded df ->
  In (EvIndex vTechs j) (fst (main decoder cl)) ->
  0 <= j < 10 /\ j < size (DatFile.Techs df).
Proof.
  intros Hargs Hload Hin. destruct cl as [a0 l].
  cbn [args] in Hargs. subst l.
  rewrite (main_loaded_trace decoder a0 gameDir rest df Hload) in Hin.
  cbn [In] in Hin.
  repeat (destruct Hin as [Hin|Hin]; [discriminate Hin|]).
  apply report_techs_index in Hin. unfold SizeT.min in Hin.
  destruct (Z.ltb_spec 10 (size (DatFile.Techs df))); lia.
Qed.

Lemma technologies_are_read_up_to_the_tenth_witness :
  0 <= 2 < 10 /\ 2 < size (DatFile.Techs sample_df).
Proof.
  apply (technologies_are_read_up_to_the_tenth loads_sample sample_cl "/g" []
           sample_df 2 eq_refl eq_refl).
  cbv. tauto.
Defined.
